(** * replicate-mcp: the tool-call lifecycle of [index.ts]

    A shallow embedding of the request lifecycle of the Replicate MCP server:
    argument validation ([isReplicateArgs]), defaulting and job creation
    ([generateImage]), the bounded poll loop, and the tool-call boundary that
    turns every outcome into a result envelope.

    The remote service, the clock and the HTTP transport are the only effects
    of the program.  They are modelled by a small state-and-exception monad
    over a [World] that records every remote call and every suspension in
    order, with the service's replies supplied by a scripted [Remote]. *)

From Stdlib Require Import String Ascii List Arith Lia PrimFloat.
From stdpp Require Import base strings gmap pretty.
From Equations Require Import Equations.

Set Warnings "-register-all,-inexact-float".

Import ListNotations.
Local Open Scope string_scope.
Local Open Scope list_scope.

(** ** JavaScript values

    Tool arguments arrive as parsed JSON and are typed [unknown] by the
    handler, so they are modelled as untyped values.  Numbers are IEEE
    binary64, objects are finite maps from property names to values. *)

Module Js.

Inductive JsValue : Type :=
  | JsUndefined
  | JsNull
  | JsBool (b : bool)
  | JsNumber (x : float)
  | JsString (s : string)
  | JsArray (xs : list JsValue)
  | JsObject (props : gmap string JsValue).

(** The [typeof] operator. *)
Definition typeof (v : JsValue) : string :=
  match v with
  | JsUndefined => "undefined"
  | JsNull => "object"
  | JsBool _ => "boolean"
  | JsNumber _ => "number"
  | JsString _ => "string"
  | JsArray _ => "object"
  | JsObject _ => "object"
  end.

(** ToBoolean, as applied by [!v] and by [if (v)]. *)
Definition truthy (v : JsValue) : bool :=
  match v with
  | JsUndefined => false
  | JsNull => false
  | JsBool b => b
  | JsNumber x => negb (PrimFloat.eqb x 0 || PrimFloat.is_nan x)
  | JsString s => negb (String.eqb s "")
  | JsArray _ => true
  | JsObject _ => true
  end.

(** [k in v] and [v.k], for the property names the program uses: none of them
    is an array index, ["length"], or a property of a built-in prototype, so
    only the own properties of plain objects can answer. *)
Definition has_property (k : string) (v : JsValue) : bool :=
  match v with
  | JsObject props => bool_decide (is_Some (props !! k))
  | _ => false
  end.

Definition get (k : string) (v : JsValue) : JsValue :=
  match v with
  | JsObject props => default JsUndefined (props !! k)
  | _ => JsUndefined
  end.

(** The nullish coalescing operator [a ?? b]. *)
Definition coalesce (a b : JsValue) : JsValue :=
  match a with
  | JsUndefined => b
  | JsNull => b
  | _ => a
  end.

End Js.

Export Js.

Notation "a ?? b" := (coalesce a b) (at level 45, left associativity).

(** ** Data carried between the program and the remote service *)

(** [interface ReplicateInput], as the object literal built by
    [generateImage]: a field holding [JsUndefined] is dropped by
    [JSON.stringify] and so is absent from the body on the wire. *)
Record ReplicateInput : Type := {
  prompt : JsValue;
  raw : JsValue;
  seed : JsValue;
  aspect_ratio : JsValue;
  image_prompt : JsValue;
  output_format : JsValue;
  safety_tolerance : JsValue;
  image_prompt_strength : JsValue;
}.

Record ReplicateRequest : Type := { input : ReplicateInput }.

(** [interface ReplicateResponse]; an optional field that is absent or
    [null] is [None]. *)
Record ReplicateResponse : Type := {
  id : string;
  status : string;
  output : option (list string);
  error : option string;
}.

(** What the program reads of a fetch [Response]: [ok], [status] (here
    [http_status]), [statusText], the body as text, and the body parsed as
    JSON and cast to [ReplicateResponse].  The body of a response that is
    [ok] is taken to parse to an object of that shape. *)
Record Response : Type := {
  ok : bool;
  http_status : nat;
  statusText : string;
  text : string;
  json : ReplicateResponse;
}.

(** The tool-call response envelope; [content_text] is the [text] of a
    content item. *)
Record Content : Type := { type : string; content_text : string }.

Record ToolResult : Type := { content : list Content; isError : bool }.

Record CallToolRequest : Type := { name : string; arguments : JsValue }.

(** ** The world: remote calls and suspensions, in order *)

Inductive Event : Type :=
  | EvCreate (body : ReplicateRequest)
  | EvRead (prediction_id : string)
  | EvSleep (ms : nat).

(** A scripted remote service: its reply to the job-creation call, and its
    reply to the [n]-th status read (counting from 0). *)
Record Remote : Type := {
  on_create : ReplicateRequest -> Response;
  on_read : nat -> string -> Response;
}.

Record World : Type := { reads : nat; trace : list Event }.

Definition initial_world : World := {| reads := 0; trace := [] |}.

Inductive Outcome (A : Type) : Type :=
  | Returned (a : A)
  | Thrown (message : string).

Arguments Returned {A} a.
Arguments Thrown {A} message.

Definition M (A : Type) : Type := World -> Outcome A * World.

Definition ret {A} (a : A) : M A := fun w => (Returned a, w).

Definition throw {A} (message : string) : M A := fun w => (Thrown message, w).

Definition bind {A B} (m : M A) (k : A -> M B) : M B :=
  fun w =>
    match m w with
    | (Returned a, w') => k a w'
    | (Thrown e, w') => (Thrown e, w')
    end.

Notation "'let*' x ':=' m 'in' k" := (bind m (fun x => k))
  (at level 10, x name, m at level 100, k at level 200).

Notation "m ';;' k" := (bind m (fun _ => k))
  (at level 100, k at level 200, right associativity).

Definition record (e : Event) (w : World) : World :=
  {| reads := reads w; trace := trace w ++ [e] |}.

Definition MAX_ATTEMPTS : nat := 60.

Definition POLL_INTERVAL : nat := 2000.

Definition TOOL_NAME : string := "replicate_image_generate".

Section Program.

Variable net : Remote.

(** [sleep(ms)] *)
Definition sleep (ms : nat) : M unit :=
  fun w => (Returned tt, record (EvSleep ms) w).

(** [fetch("https://api.replicate.com/v1/predictions", {method: "POST", ...})] *)
Definition fetch_create (body : ReplicateRequest) : M Response :=
  fun w => (Returned (on_create net body), record (EvCreate body) w).

(** [fetch(`https://api.replicate.com/v1/predictions/${id}`, ...)] *)
Definition fetch_read (prediction_id : string) : M Response :=
  fun w =>
    (Returned (on_read net (reads w) prediction_id),
     {| reads := S (reads w); trace := trace w ++ [EvRead prediction_id] |}).

(** The message of the error thrown on a response that is not [ok], by
    [getPredictionStatus] and by [generateImage] alike:
    [`Replicate API error: ${status} ${statusText}\n${text}`]. *)
Definition api_error (response : Response) : string :=
  "Replicate API error: " +:+ pretty (http_status response) +:+ " "
    +:+ statusText response +:+ String "010" (text response).

Definition getPredictionStatus (prediction_id : string) : M ReplicateResponse :=
  let* response := fetch_read prediction_id in
  if negb (ok response) then throw (api_error response)
  else ret (json response).

(** [if (status.error)]: the field is present and not the empty string. *)
Definition error_set (r : ReplicateResponse) : bool :=
  match error r with
  | Some e => negb (String.eqb e "")
  | None => false
  end.

(** The [while (attempts < MAX_ATTEMPTS)] loop of [generateImage]. *)
Equations? poll_loop (prediction_id : string) (attempts : nat) : M string
  by wf (MAX_ATTEMPTS - attempts) lt :=
poll_loop prediction_id attempts :=
  match lt_dec attempts MAX_ATTEMPTS with
  | left _ =>
      let* status_ := getPredictionStatus prediction_id in
      if error_set status_ then
        throw ("Replicate API error: " +:+ default "" (error status_))
      else
        match String.eqb (status status_) "succeeded", output status_ with
        | true, Some (first :: _) => ret first
        | _, _ =>
            if String.eqb (status status_) "failed" then
              throw "Image generation failed"
            else
              sleep POLL_INTERVAL ;;
              poll_loop prediction_id (S attempts)
        end
  | right _ => throw "Timeout waiting for image generation"
  end.
Proof. all: unfold MAX_ATTEMPTS in *; lia. Defined.

(** [generateImage(params)]: build the defaulted body, create the prediction,
    then poll it.  [params] is the argument object itself, seen through the
    [ReplicateInput] interface. *)
Definition requestBody (params : JsValue) : ReplicateRequest :=
  {| input := {|
       prompt := get "prompt" params;
       raw := get "raw" params ?? JsBool false;
       seed := get "seed" params;
       aspect_ratio := get "aspect_ratio" params ?? JsString "1:1";
       image_prompt := get "image_prompt" params;
       output_format := get "output_format" params ?? JsString "jpg";
       safety_tolerance := get "safety_tolerance" params ?? JsNumber 2;
       image_prompt_strength :=
         get "image_prompt_strength" params ?? JsNumber 0.1;
     |} |}.

Definition generateImage (params : JsValue) : M string :=
  let* response := fetch_create (requestBody params) in
  if negb (ok response) then throw (api_error response)
  else
    let prediction := json response in
    poll_loop (id prediction) 0.

(** [isReplicateArgs(args)] *)
Definition isReplicateArgs (args : JsValue) : bool :=
  String.eqb (typeof args) "object"
  && negb (match args with JsNull => true | _ => false end)
  && has_property "prompt" args
  && String.eqb (typeof (get "prompt" args)) "string".

Definition text_result (message : string) (is_error : bool) : ToolResult :=
  {| content := [ {| type := "text"; content_text := message |} ];
     isError := is_error |}.

(** The body of the [try] block of the [CallToolRequestSchema] handler. *)
Definition call_tool_body (request : CallToolRequest) : M ToolResult :=
  let args := arguments request in
  if negb (truthy args) then throw "No arguments provided"
  else if String.eqb (name request) "replicate_image_generate" then
    if negb (isReplicateArgs args) then
      throw "Invalid arguments for replicate_image_generate"
    else
      let* imageUrl := generateImage args in
      ret (text_result ("Generated image URL: " +:+ imageUrl) false)
  else
    ret (text_result ("Unknown tool: " +:+ name request) true).

(** The handler: the [try] block with its [catch], which turns every thrown
    error into an envelope.  Every error the program throws is an [Error]
    object, so the text is built from its message. *)
Definition call_tool (request : CallToolRequest) (w : World)
  : ToolResult * World :=
  match call_tool_body request w with
  | (Returned result, w') => (result, w')
  | (Thrown message, w') => (text_result ("Error: " +:+ message) true, w')
  end.

(** One tool invocation observed from outside: the envelope returned and the
    remote calls and suspensions it caused. *)
Definition invoke (request : CallToolRequest) : ToolResult * list Event :=
  let '(result, w) := call_tool request initial_world in
  (result, trace w).

End Program.

(** ** Observations on envelopes and traces *)

(** The text of the (single) content item of an envelope. *)
Definition result_text (r : ToolResult) : string :=
  match content r with
  | c :: _ => content_text c
  | [] => ""
  end.

Definition is_read (e : Event) : bool :=
  match e with EvRead _ => true | _ => false end.

Definition is_create (e : Event) : bool :=
  match e with EvCreate _ => true | _ => false end.

Definition is_sleep (e : Event) : bool :=
  match e with EvSleep _ => true | _ => false end.

Definition count_reads (t : list Event) : nat := length (List.filter is_read t).

Definition count_sleeps (t : list Event) : nat := length (List.filter is_sleep t).

(** Substring test, for messages said to contain a phrase. *)
Fixpoint contains (needle hay : string) : bool :=
  String.prefix needle hay
  || match hay with
     | EmptyString => false
     | String _ rest => contains needle rest
     end.

(** A remote whose status reads follow a list of replies, then repeat
    [otherwise]. *)
Definition scripted (created : Response) (replies : list Response)
    (otherwise : Response) : Remote :=
  {| on_create := fun _ => created;
     on_read := fun n _ => nth n replies otherwise |}.

(** An HTTP 200 reply carrying a prediction. *)
Definition reply_ok (r : ReplicateResponse) : Response :=
  {| ok := true; http_status := 200; statusText := "OK"; text := "";
     json := r |}.

(** A reply that is not [ok], with no usable payload. *)
Definition reply_error (code : nat) (reason body : string) : Response :=
  {| ok := false; http_status := code; statusText := reason; text := body;
     json := {| id := ""; status := ""; output := None; error := None |} |}.

Definition prediction (st : string) (out : option (list string))
    (err : option string) : ReplicateResponse :=
  {| id := "p1"; status := st; output := out; error := err |}.

Definition args_of (fields : list (string * JsValue)) : JsValue :=
  JsObject (list_to_map fields).


(** ** The poll loop, one iteration at a time *)

(** A reply on which the loop body reaches its last line: the read was [ok],
    no error is set, the job has not succeeded with an output, and it has not
    failed. *)
Definition has_output (r : ReplicateResponse) : bool :=
  match output r with
  | Some (_ :: _) => true
  | _ => false
  end.

Definition in_progress (response : Response) : bool :=
  ok response
  && negb (error_set (json response))
  && negb (String.eqb (status (json response)) "succeeded"
           && has_output (json response))
  && negb (String.eqb (status (json response)) "failed").

(** The events of [k] iterations that each read an in-progress reply. *)
Fixpoint waits (pid : string) (k : nat) : list Event :=
  match k with
  | 0 => []
  | S k' => EvRead pid :: EvSleep POLL_INTERVAL :: waits pid k'
  end.

Definition after_read (pid : string) (w : World) : World :=
  {| reads := S (reads w); trace := trace w ++ [EvRead pid] |}.

Section Loop.

Variable net : Remote.
Variable pid : string.

Lemma poll_loop_iteration attempts w :
  attempts < MAX_ATTEMPTS ->
  poll_loop net pid attempts w =
  let r := on_read net (reads w) pid in
  let w1 := after_read pid w in
  if negb (ok r) then (Thrown (api_error r), w1)
  else if error_set (json r) then
    (Thrown ("Replicate API error: " +:+ default "" (error (json r))), w1)
  else if String.eqb (status (json r)) "succeeded" && has_output (json r) then
    (Returned (hd "" (default [] (output (json r)))), w1)
  else if String.eqb (status (json r)) "failed" then
    (Thrown "Image generation failed", w1)
  else poll_loop net pid (S attempts) (record (EvSleep POLL_INTERVAL) w1).
Proof.
  intros Hlt. rewrite poll_loop_equation_1.
  destruct (lt_dec attempts MAX_ATTEMPTS) as [_|Hge]; [|contradiction].
  unfold bind, getPredictionStatus, bind, fetch_read, after_read, has_output.
  cbn zeta.
  destruct (ok (on_read net (reads w) pid)); cbn [negb]; [|reflexivity].
  unfold ret at 1.
  destruct (error_set _); [reflexivity|].
  destruct (String.eqb (status _) "succeeded"); cbn [andb].
  - destruct (output _) as [[|u rest]|]; cbn [hd default];
      try reflexivity;
      destruct (String.eqb (status _) "failed"); reflexivity.
  - destruct (String.eqb (status _) "failed"); reflexivity.
Qed.

Lemma poll_loop_exhausted attempts w :
  MAX_ATTEMPTS <= attempts ->
  poll_loop net pid attempts w =
  (Thrown "Timeout waiting for image generation", w).
Proof.
  intros Hge. rewrite poll_loop_equation_1.
  destruct (lt_dec attempts MAX_ATTEMPTS) as [Hlt|_]; [lia|reflexivity].
Qed.

Lemma in_progress_cases (r : Response) :
  in_progress r = true ->
  ok r = true /\ error_set (json r) = false
  /\ (String.eqb (status (json r)) "succeeded" && has_output (json r)) = false
  /\ String.eqb (status (json r)) "failed" = false.
Proof.
  unfold in_progress. intros H.
  repeat (apply andb_prop in H; destruct H as [H ?]).
  repeat match goal with
         | X : negb _ = true |- _ => apply negb_true_iff in X
         end.
  auto.
Qed.

Lemma poll_loop_wait attempts w :
  attempts < MAX_ATTEMPTS ->
  in_progress (on_read net (reads w) pid) = true ->
  poll_loop net pid attempts w =
  poll_loop net pid (S attempts)
    {| reads := S (reads w);
       trace := trace w ++ [EvRead pid; EvSleep POLL_INTERVAL] |}.
Proof.
  intros Hlt Hp. rewrite poll_loop_iteration by assumption. cbn zeta.
  apply in_progress_cases in Hp. destruct Hp as (-> & -> & -> & ->).
  cbn [negb]. unfold record, after_read. cbn [reads trace].
  now rewrite <- app_assoc.
Qed.

Lemma waits_snoc k :
  waits pid (S k) = waits pid k ++ [EvRead pid; EvSleep POLL_INTERVAL].
Proof.
  induction k as [|k IH]; [reflexivity|].
  cbn [waits app] in *. do 2 f_equal. exact IH.
Qed.

Lemma waits_add a b : waits pid (a + b) = waits pid a ++ waits pid b.
Proof.
  induction a as [|a IH]; [reflexivity|].
  cbn [Nat.add waits app]. do 2 f_equal. exact IH.
Qed.

Lemma poll_loop_waits k : forall attempts w,
  attempts + k <= MAX_ATTEMPTS ->
  (forall i, i < k -> in_progress (on_read net (reads w + i) pid) = true) ->
  poll_loop net pid attempts w =
  poll_loop net pid (attempts + k)
    {| reads := reads w + k; trace := trace w ++ waits pid k |}.
Proof.
  induction k as [|k IH]; intros attempts w Hle Hp.
  - destruct w as [n t]. cbn [reads trace waits].
    now rewrite !Nat.add_0_r, app_nil_r.
  - rewrite poll_loop_wait; [|lia|].
    + rewrite IH; cbn [reads trace].
      * f_equal; [lia|]. f_equal; [lia|].
        now rewrite <- app_assoc.
      * lia.
      * intros i Hi. replace (S (reads w) + i) with (reads w + S i) by lia.
        apply Hp. lia.
    + rewrite <- (Nat.add_0_r (reads w)). apply Hp. lia.
Qed.

End Loop.

(** ** One invocation, from the request to the envelope *)

(** A request the handler passes on to [generateImage]. *)
Definition valid_request (request : CallToolRequest) : bool :=
  String.eqb (name request) TOOL_NAME && isReplicateArgs (arguments request).

(** The reply to the job-creation call, the identifier it assigns, and the
    reply to the [n]-th status read of that job. *)
Definition created (net : Remote) (args : JsValue) : Response :=
  on_create net (requestBody args).

Definition job_id (net : Remote) (args : JsValue) : string :=
  id (json (created net args)).

Definition reply (net : Remote) (args : JsValue) (n : nat) : Response :=
  on_read net n (job_id net args).

(** The first [k] status reads all find the job in progress. *)
Definition pending (net : Remote) (args : JsValue) (k : nat) : bool :=
  forallb (fun i => in_progress (reply net args i)) (seq 0 k).

(** What the loop body makes of a reply that is not in progress. *)
Definition verdict (r : Response) : Outcome string :=
  if negb (ok r) then Thrown (api_error r)
  else if error_set (json r) then
    Thrown ("Replicate API error: " +:+ default "" (error (json r)))
  else if String.eqb (status (json r)) "succeeded" && has_output (json r) then
    Returned (hd "" (default [] (output (json r))))
  else Thrown "Image generation failed".

(** The envelope the handler builds from the outcome of [generateImage]. *)
Definition envelope (o : Outcome string) : ToolResult :=
  match o with
  | Returned imageUrl => text_result ("Generated image URL: " +:+ imageUrl) false
  | Thrown message => text_result ("Error: " +:+ message) true
  end.

Lemma pending_S net args k :
  pending net args (S k) = pending net args k && in_progress (reply net args k).
Proof.
  unfold pending. rewrite seq_S, forallb_app. cbn [forallb Nat.add].
  now rewrite andb_true_r.
Qed.

Lemma pending_spec net args k :
  pending net args k = true <->
  forall i, i < k -> in_progress (reply net args i) = true.
Proof.
  unfold pending. rewrite forallb_forall. split.
  - intros H i Hi. apply H, in_seq. lia.
  - intros H i Hi. apply in_seq in Hi. apply H. lia.
Qed.

Lemma pending_le net args j k :
  j <= k -> pending net args k = true -> pending net args j = true.
Proof.
  rewrite !pending_spec. intros Hjk H i Hi. apply H. lia.
Qed.

Lemma isReplicateArgs_truthy args :
  isReplicateArgs args = true -> truthy args = true.
Proof.
  unfold isReplicateArgs. destruct args; cbn; try discriminate; reflexivity.
Qed.

Lemma valid_request_spec request :
  valid_request request = true <->
  name request = TOOL_NAME /\ isReplicateArgs (arguments request) = true.
Proof.
  unfold valid_request. rewrite andb_true_iff, String.eqb_eq. tauto.
Qed.

Section Invocation.

Variable net : Remote.
Variable request : CallToolRequest.

Let args := arguments request.
Let pid := job_id net args.
Let body := requestBody args.

Lemma invoke_valid :
  valid_request request = true ->
  invoke net request =
  let '(o, w) := generateImage net args initial_world in (envelope o, trace w).
Proof.
  intros Hv. apply valid_request_spec in Hv. destruct Hv as [Hn Ha].
  unfold invoke, call_tool, call_tool_body, args. cbn zeta.
  rewrite (isReplicateArgs_truthy _ Ha), Ha, Hn.
  cbn [negb]. unfold TOOL_NAME. rewrite String.eqb_refl.
  unfold bind.
  destruct (generateImage net (arguments request) initial_world) as [[u|m] w];
    reflexivity.
Qed.

Lemma generate_rejected :
  ok (created net args) = false ->
  generateImage net args initial_world =
  (Thrown (api_error (created net args)),
   {| reads := 0; trace := [EvCreate body] |}).
Proof.
  intros Hok. unfold generateImage, bind, fetch_create.
  fold (created net args). now rewrite Hok.
Qed.

Lemma generate_reaches k :
  ok (created net args) = true ->
  k <= MAX_ATTEMPTS ->
  pending net args k = true ->
  generateImage net args initial_world =
  poll_loop net pid k {| reads := k; trace := EvCreate body :: waits pid k |}.
Proof.
  intros Hok Hk Hp. unfold generateImage, bind, fetch_create.
  fold (created net args). rewrite Hok. cbn [negb].
  fold (job_id net args). fold pid.
  rewrite (poll_loop_waits net pid k 0); [reflexivity|lia|].
  intros i Hi. cbn [record reads initial_world Nat.add].
  rewrite pending_spec in Hp. now apply Hp.
Qed.

Lemma invoke_rejected :
  valid_request request = true ->
  ok (created net args) = false ->
  invoke net request =
  (envelope (Thrown (api_error (created net args))), [EvCreate body]).
Proof.
  intros Hv Hok. rewrite invoke_valid by assumption.
  now rewrite generate_rejected.
Qed.

Lemma generate_settled k :
  ok (created net args) = true ->
  k < MAX_ATTEMPTS ->
  pending net args k = true ->
  in_progress (reply net args k) = false ->
  generateImage net args initial_world =
  (verdict (reply net args k),
   {| reads := S k; trace := EvCreate body :: waits pid k ++ [EvRead pid] |}).
Proof.
  intros Hok Hk Hp Hs.
  rewrite (generate_reaches k) by (assumption || lia).
  rewrite poll_loop_iteration by assumption. cbn zeta. cbn [reads].
  change (on_read net k pid) with (reply net args k).
  unfold verdict, in_progress, after_read in *. cbn [trace reads].
  set (r := reply net args k) in *.
  destruct (ok r), (error_set (json r)),
    (String.eqb (status (json r)) "succeeded" && has_output (json r)),
    (String.eqb (status (json r)) "failed");
    cbn [negb andb] in *; try discriminate; reflexivity.
Qed.

Lemma invoke_settled k :
  valid_request request = true ->
  ok (created net args) = true ->
  k < MAX_ATTEMPTS ->
  pending net args k = true ->
  in_progress (reply net args k) = false ->
  invoke net request =
  (envelope (verdict (reply net args k)),
   EvCreate body :: waits pid k ++ [EvRead pid]).
Proof.
  intros Hv Hok Hk Hp Hs. rewrite invoke_valid by assumption.
  now rewrite (generate_settled k).
Qed.

Lemma invoke_timeout :
  valid_request request = true ->
  ok (created net args) = true ->
  pending net args MAX_ATTEMPTS = true ->
  invoke net request =
  (envelope (Thrown "Timeout waiting for image generation"),
   EvCreate body :: waits pid MAX_ATTEMPTS).
Proof.
  intros Hv Hok Hp. rewrite invoke_valid by assumption.
  rewrite (generate_reaches MAX_ATTEMPTS) by (assumption || lia).
  now rewrite poll_loop_exhausted by lia.
Qed.

End Invocation.

(** ** Requests that never reach [generateImage] *)

Lemma invoke_no_arguments net request :
  truthy (arguments request) = false ->
  invoke net request =
  (envelope (Thrown "No arguments provided"), []).
Proof.
  intros H. unfold invoke, call_tool, call_tool_body. cbn zeta.
  now rewrite H.
Qed.

Lemma invoke_unknown_tool net request :
  truthy (arguments request) = true ->
  String.eqb (name request) TOOL_NAME = false ->
  invoke net request =
  (text_result ("Unknown tool: " +:+ name request) true, []).
Proof.
  intros Ht Hn. unfold invoke, call_tool, call_tool_body. cbn zeta.
  rewrite Ht. unfold TOOL_NAME in Hn. now rewrite Hn.
Qed.

Lemma invoke_invalid_arguments net request :
  truthy (arguments request) = true ->
  String.eqb (name request) TOOL_NAME = true ->
  isReplicateArgs (arguments request) = false ->
  invoke net request =
  (envelope (Thrown "Invalid arguments for replicate_image_generate"), []).
Proof.
  intros Ht Hn Ha. unfold invoke, call_tool, call_tool_body. cbn zeta.
  rewrite Ht, Ha. unfold TOOL_NAME in Hn. now rewrite Hn.
Qed.

(** Either some read within the budget finds the job settled, or all
    [MAX_ATTEMPTS] reads find it in progress. *)
Lemma settles_or_times_out net args :
  (exists k, k < MAX_ATTEMPTS /\ pending net args k = true
             /\ in_progress (reply net args k) = false)
  \/ pending net args MAX_ATTEMPTS = true.
Proof.
  assert (H : forall n,
    (exists k, k < n /\ pending net args k = true
               /\ in_progress (reply net args k) = false)
    \/ pending net args n = true).
  { induction n as [|n [(k & Hk & Hp & Hs)|Hp]].
    - now right.
    - left. exists k. split; [lia|]. now split.
    - destruct (in_progress (reply net args n)) eqn:E.
      + right. now rewrite pending_S, Hp, E.
      + left. exists n. split; [lia|]. now split. }
  apply H.
Qed.

(** Every way an invocation can go, with the envelope it returns and the
    remote calls and suspensions it makes. *)
Inductive Run (net : Remote) (request : CallToolRequest)
  : ToolResult * list Event -> Prop :=
  | RunNoArguments :
      truthy (arguments request) = false ->
      Run net request (envelope (Thrown "No arguments provided"), [])
  | RunUnknownTool :
      truthy (arguments request) = true ->
      String.eqb (name request) TOOL_NAME = false ->
      Run net request
        (text_result ("Unknown tool: " +:+ name request) true, [])
  | RunInvalidArguments :
      truthy (arguments request) = true ->
      String.eqb (name request) TOOL_NAME = true ->
      isReplicateArgs (arguments request) = false ->
      Run net request
        (envelope (Thrown "Invalid arguments for replicate_image_generate"),
         [])
  | RunRejected :
      valid_request request = true ->
      ok (created net (arguments request)) = false ->
      Run net request
        (envelope (Thrown (api_error (created net (arguments request)))),
         [EvCreate (requestBody (arguments request))])
  | RunSettled k :
      valid_request request = true ->
      ok (created net (arguments request)) = true ->
      k < MAX_ATTEMPTS ->
      pending net (arguments request) k = true ->
      in_progress (reply net (arguments request) k) = false ->
      Run net request
        (envelope (verdict (reply net (arguments request) k)),
         EvCreate (requestBody (arguments request))
           :: waits (job_id net (arguments request)) k
           ++ [EvRead (job_id net (arguments request))])
  | RunTimeout :
      valid_request request = true ->
      ok (created net (arguments request)) = true ->
      pending net (arguments request) MAX_ATTEMPTS = true ->
      Run net request
        (envelope (Thrown "Timeout waiting for image generation"),
         EvCreate (requestBody (arguments request))
           :: waits (job_id net (arguments request)) MAX_ATTEMPTS).

Lemma invoke_run net request : Run net request (invoke net request).
Proof.
  destruct (truthy (arguments request)) eqn:Ht.
  2: { rewrite invoke_no_arguments by assumption. now constructor. }
  destruct (String.eqb (name request) TOOL_NAME) eqn:Hn.
  2: { rewrite invoke_unknown_tool by assumption. now constructor. }
  destruct (isReplicateArgs (arguments request)) eqn:Ha.
  2: { rewrite invoke_invalid_arguments by assumption. now constructor. }
  assert (Hv : valid_request request = true).
  { unfold valid_request. now rewrite Hn, Ha. }
  destruct (ok (created net (arguments request))) eqn:Hok.
  2: { rewrite invoke_rejected by assumption. now constructor. }
  destruct (settles_or_times_out net (arguments request))
    as [(k & Hk & Hp & Hs)|Hp].
  - rewrite (invoke_settled net request k) by assumption.
    now constructor.
  - rewrite invoke_timeout by assumption. now constructor.
Qed.

Lemma count_reads_app t1 t2 :
  count_reads (t1 ++ t2) = count_reads t1 + count_reads t2.
Proof. unfold count_reads. now rewrite List.filter_app, length_app. Qed.

Lemma count_reads_waits pid k : count_reads (waits pid k) = k.
Proof.
  induction k as [|k IH]; [reflexivity|].
  cbn [waits]. unfold count_reads in *. cbn [List.filter is_read length].
  now rewrite IH.
Qed.

Lemma count_sleeps_app t1 t2 :
  count_sleeps (t1 ++ t2) = count_sleeps t1 + count_sleeps t2.
Proof. unfold count_sleeps. now rewrite List.filter_app, length_app. Qed.

Lemma count_sleeps_waits pid k : count_sleeps (waits pid k) = k.
Proof.
  induction k as [|k IH]; [reflexivity|].
  cbn [waits]. unfold count_sleeps in *. cbn [List.filter is_sleep length].
  now rewrite IH.
Qed.

(** ** Fixtures: concrete requests and scripted services *)

Definition request_for (args : JsValue) : CallToolRequest :=
  {| name := TOOL_NAME; arguments := args |}.

Definition a_cat : JsValue := args_of [("prompt", JsString "a cat")].

Definition starting : Response := reply_ok (prediction "starting" None None).

Definition processing : Response :=
  reply_ok (prediction "processing" None None).

(** ** The settled claims *)

(** *** C1: a failed job *)

Definition failed_with_error : Remote :=
  scripted starting
    [reply_ok (prediction "failed" None (Some "boom"))] processing.

(** C1, as stated, fails: a reply with status ["failed"] whose [error] field
    is the non-empty string ["boom"] ends the invocation with the message
    built from that field, and the text does not mention
    ["Image generation failed"]. *)
Lemma C1_failed_reply_with_error_field :
  status (json (reply failed_with_error a_cat 0)) = "failed"
  /\ fst (invoke failed_with_error (request_for a_cat))
     = text_result "Error: Replicate API error: boom" true
  /\ contains "Image generation failed"
       (result_text (fst (invoke failed_with_error (request_for a_cat))))
     = false.
Proof. vm_compute. repeat split. Qed.

(** C1, amended: when a status read within the budget returns status
    ["failed"], the invocation fails at that read.  The message is
    ["Image generation failed"] when the reply's [error] field is absent or
    empty; when it is a non-empty string the message is
    ["Replicate API error: <error>"] instead. *)
Theorem C1_failed_reply (net : Remote) (request : CallToolRequest) (k : nat) :
  valid_request request = true ->
  ok (created net (arguments request)) = true ->
  k < 60 ->
  pending net (arguments request) k = true ->
  ok (reply net (arguments request) k) = true ->
  status (json (reply net (arguments request) k)) = "failed" ->
  invoke net request =
  (text_result
     (match error (json (reply net (arguments request) k)) with
      | None | Some "" => "Error: Image generation failed"
      | Some e => "Error: Replicate API error: " +:+ e
      end) true,
   EvCreate (requestBody (arguments request))
     :: waits (job_id net (arguments request)) k
     ++ [EvRead (job_id net (arguments request))]).
Proof.
  intros Hv Hc Hk Hp Hok Hst.
  rewrite (invoke_settled net request k); try assumption.
  - unfold verdict, error_set. rewrite Hok, Hst. cbn [negb].
    destruct (error (json (reply net (arguments request) k))) as [[|c e]|];
      reflexivity.
  - unfold in_progress. rewrite Hst. cbn. now rewrite !andb_false_r.
Qed.

Definition failed_after_one_wait : Remote :=
  scripted starting
    [processing; reply_ok (prediction "failed" None None)] processing.

Lemma C1_failed_reply_witness :
  invoke failed_after_one_wait (request_for a_cat) =
  (text_result "Error: Image generation failed" true,
   [EvCreate (requestBody a_cat); EvRead "p1"; EvSleep 2000; EvRead "p1"]).
Proof.
  apply (C1_failed_reply failed_after_one_wait (request_for a_cat) 1);
    solve [reflexivity | lia].
Defined.

(** *** C2: a succeeded job *)

Definition succeeded_with_error : Remote :=
  scripted starting
    [reply_ok (prediction "succeeded" (Some ["https://x/img.jpg"])
                 (Some "boom"))] processing.

(** C2, as stated, fails: a reply with status ["succeeded"] and a non-empty
    output whose [error] field is also a non-empty string is not a success;
    the error check comes first and the invocation fails. *)
Lemma C2_succeeded_reply_with_error_field :
  status (json (reply succeeded_with_error a_cat 0)) = "succeeded"
  /\ output (json (reply succeeded_with_error a_cat 0))
     = Some ["https://x/img.jpg"]
  /\ fst (generateImage succeeded_with_error a_cat initial_world)
     = Thrown "Replicate API error: boom"
  /\ fst (invoke succeeded_with_error (request_for a_cat))
     = text_result "Error: Replicate API error: boom" true.
Proof. vm_compute. repeat split. Qed.

(** C2, amended: when a status read within the budget returns status
    ["succeeded"] with a non-empty output sequence and an [error] field that
    is absent or empty, [generateImage] returns the first URI of the sequence,
    whatever follows it, and the envelope has [isError: false] and the text
    ["Generated image URL: <uri>"]. *)
Theorem C2_succeeded_reply (net : Remote) (request : CallToolRequest)
    (k : nat) (uri : string) (more : list string) :
  valid_request request = true ->
  ok (created net (arguments request)) = true ->
  k < 60 ->
  pending net (arguments request) k = true ->
  ok (reply net (arguments request) k) = true ->
  status (json (reply net (arguments request) k)) = "succeeded" ->
  output (json (reply net (arguments request) k)) = Some (uri :: more) ->
  error_set (json (reply net (arguments request) k)) = false ->
  fst (generateImage net (arguments request) initial_world) = Returned uri
  /\ invoke net request =
     (text_result ("Generated image URL: " +:+ uri) false,
      EvCreate (requestBody (arguments request))
        :: waits (job_id net (arguments request)) k
        ++ [EvRead (job_id net (arguments request))]).
Proof.
  intros Hv Hc Hk Hp Hok Hst Hout Herr.
  assert (Hs : in_progress (reply net (arguments request) k) = false).
  { unfold in_progress, has_output. rewrite Hok, Herr, Hst, Hout.
    reflexivity. }
  assert (Hverdict : verdict (reply net (arguments request) k) = Returned uri).
  { unfold verdict, has_output. rewrite Hok, Herr, Hst, Hout. reflexivity. }
  split.
  - rewrite (generate_settled net request k) by assumption.
    exact Hverdict.
  - rewrite (invoke_settled net request k) by assumption.
    now rewrite Hverdict.
Qed.

Definition two_outputs_after_one_wait : Remote :=
  scripted starting
    [processing;
     reply_ok (prediction "succeeded"
                 (Some ["https://x/a.jpg"; "https://x/b.jpg"]) None)]
    processing.

Lemma C2_succeeded_reply_witness :
  fst (generateImage two_outputs_after_one_wait a_cat initial_world)
  = Returned "https://x/a.jpg"
  /\ invoke two_outputs_after_one_wait (request_for a_cat) =
     (text_result "Generated image URL: https://x/a.jpg" false,
      [EvCreate (requestBody a_cat); EvRead "p1"; EvSleep 2000; EvRead "p1"]).
Proof.
  apply (C2_succeeded_reply two_outputs_after_one_wait (request_for a_cat) 1
           "https://x/a.jpg" ["https://x/b.jpg"]);
    solve [reflexivity | lia].
Defined.

(** *** C6: responses that are not [ok] *)

(** A call to the remote service: the job creation, or the [k]-th status
    read (counting from 0). *)
Inductive RemoteCall : Type :=
  | CreateCall
  | ReadCall (k : nat).

Definition response_to (net : Remote) (args : JsValue) (c : RemoteCall)
  : Response :=
  match c with
  | CreateCall => created net args
  | ReadCall k => reply net args k
  end.

(** The call is made: a read is made when the job was created, it is within
    the budget, and every earlier read found the job in progress. *)
Definition reached (net : Remote) (args : JsValue) (c : RemoteCall) : bool :=
  match c with
  | CreateCall => true
  | ReadCall k => ok (created net args) && Nat.ltb k 60 && pending net args k
  end.

(** The remote calls and suspensions up to and including the call. *)
Definition trace_until (net : Remote) (args : JsValue) (c : RemoteCall)
  : list Event :=
  match c with
  | CreateCall => [EvCreate (requestBody args)]
  | ReadCall k =>
      EvCreate (requestBody args)
        :: waits (job_id net args) k ++ [EvRead (job_id net args)]
  end.

(** C6: when the job-creation call or a status read gets a response that is
    not [ok], the invocation ends there with [isError: true] and a message
    carrying the status code, the status text and the body of that response;
    the failing call is the last event, so it is not retried, and after a
    failed creation no status read is made at all. *)
Theorem C6_remote_error (net : Remote) (request : CallToolRequest)
    (c : RemoteCall) :
  valid_request request = true ->
  reached net (arguments request) c = true ->
  ok (response_to net (arguments request) c) = false ->
  invoke net request =
  (text_result
     ("Error: Replicate API error: "
        +:+ pretty (http_status (response_to net (arguments request) c))
        +:+ " " +:+ statusText (response_to net (arguments request) c)
        +:+ String "010" (text (response_to net (arguments request) c)))
     true,
   trace_until net (arguments request) c)
  /\ count_reads (trace_until net (arguments request) CreateCall) = 0.
Proof.
  intros Hv Hr Hok. split; [|reflexivity].
  destruct c as [|k]; cbn [response_to reached trace_until] in *.
  - now rewrite invoke_rejected.
  - apply andb_prop in Hr. destruct Hr as [Hr Hp].
    apply andb_prop in Hr. destruct Hr as [Hc Hk].
    apply Nat.ltb_lt in Hk.
    rewrite (invoke_settled net request k); try assumption.
    + unfold verdict. now rewrite Hok.
    + unfold in_progress. now rewrite Hok.
Qed.

Definition create_500 : Remote :=
  scripted (reply_error 500 "Internal Server Error" "overloaded") []
    processing.

Lemma C6_remote_error_witness :
  invoke create_500 (request_for a_cat) =
  (text_result
     ("Error: Replicate API error: 500 Internal Server Error"
        +:+ String "010" "overloaded") true,
   [EvCreate (requestBody a_cat)])
  /\ count_reads [EvCreate (requestBody a_cat)] = 0.
Proof.
  apply (C6_remote_error create_500 (request_for a_cat) CreateCall);
    reflexivity.
Defined.

(** *** C3: the poll budget *)

(** The part of a trace after the job creation alternates status reads with
    suspensions of 2000 milliseconds, starting with a read: consecutive reads
    are separated by exactly one such suspension. *)
Fixpoint alternates (t : list Event) : bool :=
  match t with
  | [] => true
  | [EvRead _] => true
  | EvRead _ :: EvSleep ms :: rest => Nat.eqb ms 2000 && alternates rest
  | _ => false
  end.

Definition poll_schedule (t : list Event) : bool :=
  match t with
  | [] => true
  | EvCreate _ :: rest => alternates rest
  | _ => false
  end.

Lemma alternates_waits pid k tail :
  alternates (waits pid k ++ tail) = alternates tail.
Proof.
  induction k as [|k IH]; [reflexivity|].
  cbn [waits app alternates]. exact IH.
Qed.

Lemma invoke_schedule net request :
  count_reads (snd (invoke net request)) <= 60
  /\ poll_schedule (snd (invoke net request)) = true.
Proof.
  destruct (invoke_run net request) as [| | | |k _ _ Hk _ _|];
    cbn [snd poll_schedule];
    try (change (EvCreate ?b :: ?t) with ([EvCreate b] ++ t));
    rewrite ?count_reads_app, ?count_reads_waits.
  1-4: split; [cbn; lia|reflexivity].
  - rewrite alternates_waits.
    split; [cbn; unfold MAX_ATTEMPTS in *; lia|reflexivity].
  - rewrite <- (app_nil_r (waits _ _)), alternates_waits.
    split; [cbn; unfold MAX_ATTEMPTS; lia|reflexivity].
Qed.

(** C3: no invocation makes more than 60 status reads, and its reads are
    separated by suspensions of 2000 milliseconds; when the first 60 reads
    all find the job in progress, the invocation ends with [isError: true]
    and the timeout message after exactly 60 reads, each followed by one
    suspension, and no 61st read is made. *)
Theorem C3_poll_budget (net : Remote) (request : CallToolRequest) :
  valid_request request = true ->
  ok (created net (arguments request)) = true ->
  pending net (arguments request) 60 = true ->
  invoke net request =
  (text_result "Error: Timeout waiting for image generation" true,
   EvCreate (requestBody (arguments request))
     :: waits (job_id net (arguments request)) 60)
  /\ count_reads (snd (invoke net request)) = 60
  /\ (forall (net' : Remote) (request' : CallToolRequest),
        count_reads (snd (invoke net' request')) <= 60
        /\ poll_schedule (snd (invoke net' request')) = true).
Proof.
  intros Hv Hc Hp. split; [|split].
  - now rewrite invoke_timeout.
  - rewrite invoke_timeout by assumption. cbn [snd].
    change (EvCreate ?b :: ?t) with ([EvCreate b] ++ t).
    now rewrite count_reads_app, count_reads_waits.
  - intros net' request'. apply invoke_schedule.
Qed.

Definition always_processing : Remote := scripted starting [] processing.

Lemma C3_poll_budget_witness :
  invoke always_processing (request_for a_cat) =
  (text_result "Error: Timeout waiting for image generation" true,
   EvCreate (requestBody a_cat) :: waits "p1" 60)
  /\ count_reads (snd (invoke always_processing (request_for a_cat))) = 60
  /\ (forall (net' : Remote) (request' : CallToolRequest),
        count_reads (snd (invoke net' request')) <= 60
        /\ poll_schedule (snd (invoke net' request')) = true).
Proof.
  apply (C3_poll_budget always_processing (request_for a_cat));
    reflexivity.
Defined.

(** *** C9: succeeded without an output *)

(** A reply with status ["succeeded"], no [error] field, and an output that
    is absent or empty. *)
Definition succeeded_without_output (r : Response) : bool :=
  ok r
  && String.eqb (status (json r)) "succeeded"
  && match output (json r) with
     | None | Some [] => true
     | Some (_ :: _) => false
     end
  && match error (json r) with
     | None => true
     | Some _ => false
     end.

Lemma succeeded_without_output_in_progress r :
  succeeded_without_output r = true -> in_progress r = true.
Proof.
  unfold succeeded_without_output, in_progress, error_set, has_output.
  intros H.
  repeat (apply andb_prop in H; destruct H as [H ?]).
  apply String.eqb_eq in H2. rewrite H, H2.
  destruct (error (json r)); [discriminate|].
  destruct (output (json r)) as [[|u rest]|]; try discriminate; reflexivity.
Qed.

(** C9: a status read within the budget that returns status ["succeeded"]
    with no output and no error is handled as in progress: the loop suspends
    for 2000 milliseconds after it and, while the budget lasts, reads again;
    a job whose 60 reads all return such replies ends in the timeout error,
    not in success. *)
Theorem C9_succeeded_without_output (net : Remote) (request : CallToolRequest)
    (k : nat) :
  valid_request request = true ->
  ok (created net (arguments request)) = true ->
  k < 60 ->
  pending net (arguments request) k = true ->
  succeeded_without_output (reply net (arguments request) k) = true ->
  (exists rest,
      snd (invoke net request) =
      EvCreate (requestBody (arguments request))
        :: waits (job_id net (arguments request)) k
        ++ [EvRead (job_id net (arguments request)); EvSleep 2000] ++ rest
      /\ (S k < 60 ->
          hd_error rest = Some (EvRead (job_id net (arguments request)))))
  /\ ((forall i, i < 60 ->
         succeeded_without_output (reply net (arguments request) i) = true) ->
      invoke net request =
      (text_result "Error: Timeout waiting for image generation" true,
       EvCreate (requestBody (arguments request))
         :: waits (job_id net (arguments request)) 60)).
Proof.
  intros Hv Hc Hk Hp Hs.
  apply succeeded_without_output_in_progress in Hs.
  assert (Hp' : pending net (arguments request) (S k) = true)
    by now rewrite pending_S, Hp, Hs.
  split.
  - destruct (invoke_run net request) as [H|H|H ? Ha|? H| j _ _ Hj Hpj Hsj|_ _ Hall];
      cbn [snd].
    + apply valid_request_spec in Hv. destruct Hv as [_ Ha].
      apply isReplicateArgs_truthy in Ha. congruence.
    + apply valid_request_spec in Hv. destruct Hv as [Hn _].
      apply String.eqb_neq in H0. contradiction.
    + apply valid_request_spec in Hv. destruct Hv as [_ Hb]. congruence.
    + congruence.
    + assert (Hkj : S k <= j).
      { destruct (le_lt_dec (S k) j) as [|Hlt]; [assumption|].
        rewrite pending_spec in Hp'. rewrite Hp' in Hsj by lia.
        discriminate. }
      exists (waits (job_id net (arguments request)) (j - S k)
              ++ [EvRead (job_id net (arguments request))]).
      split.
      * f_equal. replace j with (k + (1 + (j - S k))) at 1 by lia.
        rewrite waits_add, <- app_assoc. reflexivity.
      * intros _. destruct (j - S k); reflexivity.
    + exists (waits (job_id net (arguments request)) (59 - k)).
      split.
      * f_equal. unfold MAX_ATTEMPTS.
        replace 60 with (k + (1 + (59 - k))) at 1 by lia.
        rewrite waits_add. reflexivity.
      * intros Hlt. destruct (59 - k) eqn:E; [lia|reflexivity].
  - intros Hall. apply invoke_timeout; try assumption.
    apply pending_spec. intros i Hi.
    now apply succeeded_without_output_in_progress, Hall.
Qed.

Definition succeeded_without_output_forever : Remote :=
  scripted starting [] (reply_ok (prediction "succeeded" (Some []) None)).

Lemma C9_succeeded_without_output_witness :
  (exists rest,
      snd (invoke succeeded_without_output_forever (request_for a_cat)) =
      EvCreate (requestBody a_cat)
        :: waits "p1" 0 ++ [EvRead "p1"; EvSleep 2000] ++ rest
      /\ (1 < 60 -> hd_error rest = Some (EvRead "p1")))
  /\ ((forall i, i < 60 ->
         succeeded_without_output
           (reply succeeded_without_output_forever a_cat i) = true) ->
      invoke succeeded_without_output_forever (request_for a_cat) =
      (text_result "Error: Timeout waiting for image generation" true,
       EvCreate (requestBody a_cat) :: waits "p1" 60)).
Proof.
  apply (C9_succeeded_without_output succeeded_without_output_forever
           (request_for a_cat) 0);
    solve [reflexivity | lia].
Defined.

(** *** C8: three reads in progress, then success *)

(** Every status read of a trace comes directly after a suspension of 2000
    milliseconds; [prev] is the event before the trace. *)
Fixpoint reads_follow_sleep (prev : option Event) (t : list Event) : bool :=
  match t with
  | [] => true
  | e :: rest =>
      match e, prev with
      | EvRead _, Some (EvSleep ms) => Nat.eqb ms 2000
      | EvRead _, _ => false
      | _, _ => true
      end
      && reads_follow_sleep (Some e) rest
  end.

Definition three_waits_then_success : Remote :=
  scripted starting
    [processing; processing; processing;
     reply_ok (prediction "succeeded" (Some ["https://x/img.jpg"]) None)]
    processing.

(** C8, as stated, fails: on that poll sequence the first status read comes
    directly after the job creation, with no suspension before it, so the
    four reads are accompanied by three suspensions, not four. *)
Lemma C8_first_read_not_preceded_by_sleep :
  snd (invoke three_waits_then_success (request_for a_cat)) =
  [EvCreate (requestBody a_cat);
   EvRead "p1"; EvSleep 2000; EvRead "p1"; EvSleep 2000;
   EvRead "p1"; EvSleep 2000; EvRead "p1"]
  /\ reads_follow_sleep None
       (snd (invoke three_waits_then_success (request_for a_cat))) = false
  /\ count_sleeps (snd (invoke three_waits_then_success (request_for a_cat)))
     = 3.
Proof. vm_compute. repeat split. Qed.

(** C8, amended: for a poll sequence of three ["processing"] replies followed
    by a ["succeeded"] reply with output [["https://x/img.jpg"]], the result
    is [isError: false] with text
    ["Generated image URL: https://x/img.jpg"], exactly 4 status reads are
    made, the first directly after the job creation and each later one after
    one suspension of 2000 milliseconds (3 suspensions in all). *)
Theorem C8_three_waits_then_success (net : Remote)
    (request : CallToolRequest) :
  valid_request request = true ->
  ok (created net (arguments request)) = true ->
  (forall i, i < 3 ->
     ok (reply net (arguments request) i) = true
     /\ status (json (reply net (arguments request) i)) = "processing"
     /\ error (json (reply net (arguments request) i)) = None) ->
  ok (reply net (arguments request) 3) = true ->
  status (json (reply net (arguments request) 3)) = "succeeded" ->
  output (json (reply net (arguments request) 3))
    = Some ["https://x/img.jpg"] ->
  error (json (reply net (arguments request) 3)) = None ->
  invoke net request =
  (text_result "Generated image URL: https://x/img.jpg" false,
   [EvCreate (requestBody (arguments request));
    EvRead (job_id net (arguments request)); EvSleep 2000;
    EvRead (job_id net (arguments request)); EvSleep 2000;
    EvRead (job_id net (arguments request)); EvSleep 2000;
    EvRead (job_id net (arguments request))])
  /\ count_reads (snd (invoke net request)) = 4
  /\ count_sleeps (snd (invoke net request)) = 3
  /\ reads_follow_sleep (Some (EvSleep 2000))
       (tl (snd (invoke net request))) = true.
Proof.
  intros Hv Hc Hw Hok Hst Hout Herr.
  assert (Hp : pending net (arguments request) 3 = true).
  { apply pending_spec. intros i Hi.
    destruct (Hw i Hi) as (Ho & Hs & He).
    unfold in_progress, error_set. rewrite Ho, Hs, He. reflexivity. }
  assert (Hs : in_progress (reply net (arguments request) 3) = false).
  { unfold in_progress, error_set, has_output.
    rewrite Hok, Hst, Hout, Herr. reflexivity. }
  rewrite (invoke_settled net request 3)
    by (assumption || (unfold MAX_ATTEMPTS; lia)).
  unfold verdict, error_set, has_output.
  rewrite Hok, Hst, Hout, Herr.
  repeat split.
Qed.

Lemma C8_three_waits_then_success_witness :
  invoke three_waits_then_success (request_for a_cat) =
  (text_result "Generated image URL: https://x/img.jpg" false,
   [EvCreate (requestBody a_cat);
    EvRead "p1"; EvSleep 2000; EvRead "p1"; EvSleep 2000;
    EvRead "p1"; EvSleep 2000; EvRead "p1"])
  /\ count_reads (snd (invoke three_waits_then_success (request_for a_cat)))
     = 4
  /\ count_sleeps (snd (invoke three_waits_then_success (request_for a_cat)))
     = 3
  /\ reads_follow_sleep (Some (EvSleep 2000))
       (tl (snd (invoke three_waits_then_success (request_for a_cat))))
     = true.
Proof.
  apply (C8_three_waits_then_success three_waits_then_success
           (request_for a_cat));
    try reflexivity.
  intros i Hi.
  destruct i as [|[|[|i]]]; [repeat split.. | lia].
Defined.

(** *** C4: arguments without a usable prompt *)

(** C4, as stated, fails: a request that carries no arguments at all lacks
    the prompt and is answered with ["No arguments provided"]; a request for
    another tool whose arguments lack the prompt is answered with
    ["Unknown tool: ..."].  Neither text contains ["Invalid arguments"]. *)
Lemma C4_missing_arguments_message :
  has_property "prompt" JsUndefined = false
  /\ invoke always_processing (request_for JsUndefined)
     = (text_result "Error: No arguments provided" true, [])
  /\ contains "Invalid arguments" "Error: No arguments provided" = false
  /\ has_property "prompt" (args_of []) = false
  /\ invoke always_processing
       {| name := "other_tool"; arguments := args_of [] |}
     = (text_result "Unknown tool: other_tool" true, [])
  /\ contains "Invalid arguments" "Unknown tool: other_tool" = false.
Proof. vm_compute. repeat split. Qed.

Lemma not_replicate_args args :
  has_property "prompt" args = false
  \/ typeof (get "prompt" args) <> "string" ->
  isReplicateArgs args = false.
Proof.
  unfold isReplicateArgs. intros [H|H].
  - rewrite H. now rewrite andb_false_r.
  - apply String.eqb_neq in H. rewrite H. now rewrite andb_false_r.
Qed.

(** C4, amended: for every tool-call request whose arguments lack the prompt
    field or whose prompt is not a string, the result has [isError: true] and
    no remote call or suspension is made.  The text is
    ["Error: No arguments provided"] when the arguments are absent (or
    otherwise falsy), ["Error: Invalid arguments for
    replicate_image_generate"] when they are present and the request names
    [replicate_image_generate], and ["Unknown tool: <name>"] when they are
    present and it names another tool. *)
Theorem C4_invalid_arguments (net : Remote) (request : CallToolRequest) :
  has_property "prompt" (arguments request) = false
  \/ typeof (get "prompt" (arguments request)) <> "string" ->
  invoke net request =
  (text_result
     (if negb (truthy (arguments request)) then
        "Error: No arguments provided"
      else if String.eqb (name request) "replicate_image_generate" then
        "Error: Invalid arguments for replicate_image_generate"
      else "Unknown tool: " +:+ name request)
     true,
   [])
  /\ contains "Invalid arguments"
       "Error: Invalid arguments for replicate_image_generate" = true.
Proof.
  intros H. apply not_replicate_args in H. split; [|reflexivity].
  destruct (truthy (arguments request)) eqn:Ht; cbn [negb].
  - change "replicate_image_generate" with TOOL_NAME.
    destruct (String.eqb (name request) TOOL_NAME) eqn:Hn.
    + now rewrite invoke_invalid_arguments.
    + now rewrite invoke_unknown_tool.
  - now rewrite invoke_no_arguments.
Qed.

Lemma C4_invalid_arguments_witness :
  invoke always_processing (request_for (args_of [("prompt", JsNumber 7)])) =
  (text_result "Error: Invalid arguments for replicate_image_generate" true,
   [])
  /\ contains "Invalid arguments"
       "Error: Invalid arguments for replicate_image_generate" = true.
Proof.
  apply (C4_invalid_arguments always_processing
           (request_for (args_of [("prompt", JsNumber 7)]))).
  right. vm_compute. discriminate.
Defined.

(** *** C5 and C10: the body of the job-creation call *)

Definition no_create (t : list Event) : bool :=
  forallb (fun e => negb (is_create e)) t.

Lemma no_create_waits pid k tail :
  no_create (waits pid k ++ tail) = no_create tail.
Proof.
  induction k as [|k IH]; [reflexivity|].
  cbn [waits app]. unfold no_create in *. cbn [forallb is_create negb andb].
  exact IH.
Qed.

(** A valid request makes exactly one job-creation call, first, with the
    body [generateImage] builds from its arguments. *)
Lemma invoke_creates net request :
  valid_request request = true ->
  exists rest,
    snd (invoke net request)
    = EvCreate (requestBody (arguments request)) :: rest
    /\ no_create rest = true.
Proof.
  intros Hv. pose proof Hv as Hv'.
  apply valid_request_spec in Hv'. destruct Hv' as [Hn Ha].
  apply String.eqb_eq in Hn. pose proof (isReplicateArgs_truthy _ Ha) as Ht.
  destruct (invoke_run net request); try congruence; cbn [snd];
    eexists; (split; [reflexivity|]).
  - reflexivity.
  - now rewrite no_create_waits.
  - rewrite <- (app_nil_r (waits _ _)). now rewrite no_create_waits.
Qed.

(** How an optional field with a default reaches the body: the default when
    the field is omitted (or holds [null] or [undefined]), and the value
    itself otherwise, whatever it is. *)
Definition defaulted (args : JsValue) (k : string) (dflt sent : JsValue)
  : Prop :=
  (has_property k args = false -> sent = dflt)
  /\ (get k args = JsNull \/ get k args = JsUndefined -> sent = dflt)
  /\ (get k args <> JsNull -> get k args <> JsUndefined ->
      sent = get k args).

(** How an optional field without a default reaches the body: as it is, and
    as [undefined] (dropped from the JSON text) when omitted. *)
Definition forwarded (args : JsValue) (k : string) (sent : JsValue) : Prop :=
  sent = get k args
  /\ (has_property k args = false -> sent = JsUndefined).

Lemma get_omitted k args :
  has_property k args = false -> get k args = JsUndefined.
Proof.
  destruct args; cbn; try reflexivity.
  destruct (props !! k) eqn:E; [|reflexivity].
  intros H. apply bool_decide_eq_false in H. exfalso. apply H. now exists j.
Qed.

Lemma coalesce_defaulted args k dflt :
  defaulted args k dflt (get k args ?? dflt).
Proof.
  repeat split.
  - intros H. now rewrite (get_omitted _ _ H).
  - intros [-> | ->]; reflexivity.
  - intros H1 H2. destruct (get k args); try reflexivity; contradiction.
Qed.

Definition raw_is_null : JsValue :=
  args_of [("prompt", JsString "a cat"); ("raw", JsNull)].

(** C5, as stated, fails: an optional field supplied with the value [null]
    is not forwarded as given; the body carries the default in its place. *)
Lemma C5_null_field_not_forwarded :
  valid_request (request_for raw_is_null) = true
  /\ has_property "raw" raw_is_null = true
  /\ get "raw" raw_is_null = JsNull
  /\ (exists b rest,
         snd (invoke always_processing (request_for raw_is_null))
         = EvCreate b :: rest
         /\ raw (input b) = JsBool false
         /\ raw (input b) <> get "raw" raw_is_null).
Proof.
  repeat split; try (vm_compute; reflexivity).
  eexists. eexists. vm_compute. repeat split. discriminate.
Qed.

(** C5, amended: every valid request makes exactly one job-creation call,
    whose body carries the prompt as given; the defaults [raw=false],
    [aspect_ratio="1:1"], [output_format="jpg"], [safety_tolerance=2] and
    [image_prompt_strength=0.1] for each of these fields that is omitted or
    holds [null]; any other supplied value as given, with no check of it; and
    [seed] and [image_prompt] as given, with no default. *)
Theorem C5_request_body (net : Remote) (request : CallToolRequest) :
  valid_request request = true ->
  exists b rest,
    snd (invoke net request) = EvCreate b :: rest
    /\ no_create rest = true
    /\ prompt (input b) = get "prompt" (arguments request)
    /\ defaulted (arguments request) "raw" (JsBool false) (raw (input b))
    /\ defaulted (arguments request) "aspect_ratio" (JsString "1:1")
         (aspect_ratio (input b))
    /\ defaulted (arguments request) "output_format" (JsString "jpg")
         (output_format (input b))
    /\ defaulted (arguments request) "safety_tolerance" (JsNumber 2)
         (safety_tolerance (input b))
    /\ defaulted (arguments request) "image_prompt_strength" (JsNumber 0.1)
         (image_prompt_strength (input b))
    /\ forwarded (arguments request) "seed" (seed (input b))
    /\ forwarded (arguments request) "image_prompt" (image_prompt (input b)).
Proof.
  intros Hv. destruct (invoke_creates net request Hv) as (rest & Ht & Hn).
  exists (requestBody (arguments request)), rest.
  split; [exact Ht|]. split; [exact Hn|].
  cbn [requestBody input prompt raw seed aspect_ratio image_prompt
       output_format safety_tolerance image_prompt_strength].
  split; [reflexivity|].
  repeat (split; [apply coalesce_defaulted|]).
  split; (split; [reflexivity|apply get_omitted]).
Qed.

Definition odd_values : JsValue :=
  args_of [("prompt", JsString "a cat");
           ("aspect_ratio", JsString "7:7");
           ("safety_tolerance", JsNumber 99);
           ("seed", JsString "lucky")].

Lemma C5_request_body_witness :
  exists b rest,
    snd (invoke always_processing (request_for odd_values))
    = EvCreate b :: rest
    /\ no_create rest = true
    /\ prompt (input b) = get "prompt" odd_values
    /\ defaulted odd_values "raw" (JsBool false) (raw (input b))
    /\ defaulted odd_values "aspect_ratio" (JsString "1:1")
         (aspect_ratio (input b))
    /\ defaulted odd_values "output_format" (JsString "jpg")
         (output_format (input b))
    /\ defaulted odd_values "safety_tolerance" (JsNumber 2)
         (safety_tolerance (input b))
    /\ defaulted odd_values "image_prompt_strength" (JsNumber 0.1)
         (image_prompt_strength (input b))
    /\ forwarded odd_values "seed" (seed (input b))
    /\ forwarded odd_values "image_prompt" (image_prompt (input b)).
Proof.
  apply (C5_request_body always_processing (request_for odd_values)).
  reflexivity.
Defined.

(** C10: an argument object whose prompt is the empty string passes
    [isReplicateArgs], and the invocation makes the job-creation call with
    the empty prompt in its body. *)
Theorem C10_empty_prompt (net : Remote) (request : CallToolRequest)
    (props : gmap string JsValue) :
  name request = "replicate_image_generate" ->
  arguments request = JsObject props ->
  props !! "prompt" = Some (JsString "") ->
  isReplicateArgs (arguments request) = true
  /\ exists b rest,
       snd (invoke net request) = EvCreate b :: rest
       /\ prompt (input b) = JsString "".
Proof.
  intros Hn Ha Hp.
  assert (Hok : isReplicateArgs (arguments request) = true).
  { rewrite Ha. unfold isReplicateArgs. cbn [typeof has_property get].
    rewrite Hp. cbn [default typeof]. rewrite bool_decide_eq_true_2 by eauto.
    reflexivity. }
  split; [exact Hok|].
  assert (Hv : valid_request request = true).
  { apply valid_request_spec. now split. }
  destruct (invoke_creates net request Hv) as (rest & Ht & _).
  exists (requestBody (arguments request)), rest. split; [exact Ht|].
  cbn [requestBody input prompt]. rewrite Ha. cbn [get]. now rewrite Hp.
Qed.

Lemma C10_empty_prompt_witness :
  isReplicateArgs (JsObject {[ "prompt" := JsString "" ]}) = true
  /\ exists b rest,
       snd (invoke always_processing
              (request_for (JsObject {[ "prompt" := JsString "" ]})))
       = EvCreate b :: rest
       /\ prompt (input b) = JsString "".
Proof.
  apply (C10_empty_prompt always_processing
           (request_for (JsObject {[ "prompt" := JsString "" ]}))
           {[ "prompt" := JsString "" ]});
    reflexivity.
Defined.

(** *** C7: the tool-call boundary *)

(** C7, as stated, fails for an unknown tool: the envelope has
    [isError: true], but its text is ["Unknown tool: <name>"], which does not
    have the form ["Error: <description>"]. *)
Lemma C7_unknown_tool_text :
  invoke always_processing {| name := "other_tool"; arguments := a_cat |}
  = (text_result "Unknown tool: other_tool" true, [])
  /\ String.prefix "Error: " "Unknown tool: other_tool" = false.
Proof. vm_compute. repeat split. Qed.

Lemma error_text_inj d d' :
  text_result ("Error: " +:+ d) true = text_result ("Error: " +:+ d') true ->
  d = d'.
Proof.
  unfold text_result. cbv [String.append]. intros H. now inversion H.
Qed.

Lemma unknown_tool_text_not_error n d :
  text_result ("Unknown tool: " +:+ n) true
  <> text_result ("Error: " +:+ d) true.
Proof.
  unfold text_result. cbv [String.append]. intros H. inversion H.
Qed.

Lemma unknown_tool_text_inj n n' :
  text_result ("Unknown tool: " +:+ n) true
  = text_result ("Unknown tool: " +:+ n') true ->
  n = n'.
Proof.
  unfold text_result. cbv [String.append]. intros H. now inversion H.
Qed.

(** The [try] block throws an error with message [d], and the handler
    answers with [isError: true] and the text ["Error: <d>"]. *)
Definition converted (net : Remote) (request : CallToolRequest) (d : string)
  : Prop :=
  fst (call_tool_body net request initial_world) = Thrown d
  /\ fst (invoke net request) = text_result ("Error: " +:+ d) true.

(** What the [catch] does with the outcome of the [try] block. *)
Lemma envelope_of_outcome net request :
  fst (invoke net request) =
  match fst (call_tool_body net request initial_world) with
  | Returned r => r
  | Thrown d => text_result ("Error: " +:+ d) true
  end.
Proof.
  unfold invoke, call_tool.
  destruct (call_tool_body net request initial_world) as [[r|d] w];
    reflexivity.
Qed.

(** What the [try] block can return without throwing. *)
Lemma returned_cases net request r :
  fst (call_tool_body net request initial_world) = Returned r ->
  (truthy (arguments request) = true
   /\ name request <> "replicate_image_generate"
   /\ r = text_result ("Unknown tool: " +:+ name request) true)
  \/ (valid_request request = true
      /\ exists uri,
           fst (generateImage net (arguments request) initial_world)
           = Returned uri
           /\ r = text_result ("Generated image URL: " +:+ uri) false).
Proof.
  unfold call_tool_body, valid_request, TOOL_NAME. cbn zeta.
  destruct (truthy (arguments request)); cbn [negb]; [|discriminate].
  destruct (String.eqb (name request) "replicate_image_generate") eqn:Hn.
  - destruct (isReplicateArgs (arguments request)); cbn [negb];
      [|discriminate].
    unfold bind.
    destruct (generateImage net (arguments request) initial_world)
      as [[uri|d] w]; cbn [fst]; [|discriminate].
    intros H. injection H as <-. right. split; [reflexivity|].
    now exists uri.
  - intros H. injection H as <-. left. apply String.eqb_neq in Hn.
    now repeat split.
Qed.

Lemma converted_intro net request d :
  fst (invoke net request) = text_result ("Error: " +:+ d) true ->
  converted net request d.
Proof.
  intros H. split; [|exact H].
  rewrite envelope_of_outcome in H.
  destruct (fst (call_tool_body net request initial_world)) as [r|d'] eqn:E.
  - subst r. apply returned_cases in E.
    destruct E as [(_ & _ & E)|(_ & uri & _ & E)].
    + symmetry in E. now apply unknown_tool_text_not_error in E.
    + discriminate E.
  - now apply error_text_inj in H as ->.
Qed.

(** C7, amended: no error escapes an invocation; the handler always answers
    with an envelope.  Whatever is thrown inside the [try] block, with
    message [d], becomes [isError: true] with the text ["Error: <d>"]; this
    is so for each kind of error the program throws: InvalidInput (arguments
    absent, whatever the tool name; or, for [replicate_image_generate], a
    prompt that is missing or not a string), RemoteError (a creation or a
    reached status read that is not [ok]), GenerationError (a reached reply
    with a non-empty error field, or with status ["failed"]) and TimeoutError
    (60 reads in progress).  A request that carries arguments and names
    another tool is answered without any error being thrown: [isError: true]
    with the text ["Unknown tool: <name>"], which has no ["Error: "] prefix;
    no other request gets that text.  What the [try] block returns without
    throwing is passed on unchanged, and is either that envelope or the
    success envelope. *)
Theorem C7_tool_call_boundary (net : Remote) (request : CallToolRequest) :
  (forall d,
      fst (call_tool_body net request initial_world) = Thrown d ->
      fst (invoke net request) = text_result ("Error: " +:+ d) true)
  /\ (forall r,
        fst (call_tool_body net request initial_world) = Returned r ->
        fst (invoke net request) = r
        /\ (r = text_result ("Unknown tool: " +:+ name request) true
            \/ exists uri,
                 r = text_result ("Generated image URL: " +:+ uri) false))
  /\ (truthy (arguments request) = false ->
      converted net request "No arguments provided")
  /\ (truthy (arguments request) = true ->
      name request = "replicate_image_generate" ->
      isReplicateArgs (arguments request) = false ->
      converted net request "Invalid arguments for replicate_image_generate")
  /\ (forall c : RemoteCall,
        valid_request request = true ->
        reached net (arguments request) c = true ->
        ok (response_to net (arguments request) c) = false ->
        converted net request
          (api_error (response_to net (arguments request) c)))
  /\ (forall k e,
        valid_request request = true ->
        reached net (arguments request) (ReadCall k) = true ->
        ok (reply net (arguments request) k) = true ->
        error (json (reply net (arguments request) k)) = Some e ->
        e <> "" ->
        converted net request ("Replicate API error: " +:+ e))
  /\ (forall k,
        valid_request request = true ->
        reached net (arguments request) (ReadCall k) = true ->
        ok (reply net (arguments request) k) = true ->
        error_set (json (reply net (arguments request) k)) = false ->
        status (json (reply net (arguments request) k)) = "failed" ->
        converted net request "Image generation failed")
  /\ (valid_request request = true ->
      ok (created net (arguments request)) = true ->
      pending net (arguments request) 60 = true ->
      converted net request "Timeout waiting for image generation")
  /\ (truthy (arguments request) = true ->
      name request <> "replicate_image_generate" ->
      fst (call_tool_body net request initial_world)
      = Returned (text_result ("Unknown tool: " +:+ name request) true)
      /\ invoke net request
         = (text_result ("Unknown tool: " +:+ name request) true, []))
  /\ (forall n,
        fst (invoke net request)
        = text_result ("Unknown tool: " +:+ n) true ->
        truthy (arguments request) = true
        /\ name request <> "replicate_image_generate"
        /\ n = name request).
Proof.
  assert (Hreach : forall k,
    reached net (arguments request) (ReadCall k) = true ->
    ok (created net (arguments request)) = true
    /\ k < MAX_ATTEMPTS /\ pending net (arguments request) k = true).
  { intros k H. cbn [reached] in H.
    apply andb_prop in H. destruct H as [H Hp].
    apply andb_prop in H. destruct H as [Hc Hk].
    apply Nat.ltb_lt in Hk. now repeat split. }
  split; [|split; [|split; [|split; [|split; [|split; [|split; [|split;
    [|split]]]]]]]].
  - intros d H. rewrite envelope_of_outcome. now rewrite H.
  - intros r H. split.
    + rewrite envelope_of_outcome. now rewrite H.
    + apply returned_cases in H.
      destruct H as [(_ & _ & ->)|(_ & uri & _ & ->)];
        [now left|right; now exists uri].
  - intros Ht. apply converted_intro. now rewrite invoke_no_arguments.
  - intros Ht Hn Ha. apply converted_intro.
    rewrite invoke_invalid_arguments; try assumption; [reflexivity|].
    rewrite Hn. reflexivity.
  - intros c Hv Hr Hok. apply converted_intro. destruct c as [|k].
    + cbn [response_to] in *. now rewrite invoke_rejected.
    + cbn [response_to] in *. destruct (Hreach k Hr) as (Hc & Hk & Hp).
      rewrite (invoke_settled net request k); try assumption.
      * unfold verdict. now rewrite Hok.
      * unfold in_progress. now rewrite Hok.
  - intros k e Hv Hr Hok He Hne. apply converted_intro.
    destruct (Hreach k Hr) as (Hc & Hk & Hp).
    assert (Hset : error_set (json (reply net (arguments request) k)) = true).
    { unfold error_set. rewrite He. apply String.eqb_neq in Hne.
      now rewrite Hne. }
    rewrite (invoke_settled net request k); try assumption.
    + unfold verdict. now rewrite Hok, Hset, He.
    + unfold in_progress. now rewrite Hok, Hset.
  - intros k Hv Hr Hok Hset Hst. apply converted_intro.
    destruct (Hreach k Hr) as (Hc & Hk & Hp).
    rewrite (invoke_settled net request k); try assumption.
    + unfold verdict. now rewrite Hok, Hset, Hst.
    + unfold in_progress. rewrite Hst. cbn. now rewrite !andb_false_r.
  - intros Hv Hc Hp. apply converted_intro. now rewrite invoke_timeout.
  - intros Ht Hn. apply String.eqb_neq in Hn. split.
    + unfold call_tool_body. cbn zeta. rewrite Ht, Hn. reflexivity.
    + now rewrite invoke_unknown_tool.
  - intros n.
    destruct (invoke_run net request)
      as [Ht|Ht Hn|Ht Hn Ha|Hv Hok|k Hv Hok Hk Hp Hs|Hv Hok Hp];
      cbn [fst];
      try (intros H; symmetry in H;
           now apply unknown_tool_text_not_error in H).
    + intros H. apply unknown_tool_text_inj in H as <-.
      apply String.eqb_neq in Hn. now repeat split.
    + destruct (verdict (reply net (arguments request) k)) as [uri|d];
        cbn [envelope]; intros H.
      * discriminate H.
      * symmetry in H. now apply unknown_tool_text_not_error in H.
Qed.

Lemma C7_tool_call_boundary_witness :
  converted always_processing (request_for JsUndefined)
    "No arguments provided"
  /\ converted always_processing
       {| name := "other_tool"; arguments := JsUndefined |}
       "No arguments provided"
  /\ converted always_processing (request_for (args_of []))
       "Invalid arguments for replicate_image_generate"
  /\ converted create_500 (request_for a_cat)
       (api_error (reply_error 500 "Internal Server Error" "overloaded"))
  /\ converted failed_with_error (request_for a_cat)
       "Replicate API error: boom"
  /\ converted failed_after_one_wait (request_for a_cat)
       "Image generation failed"
  /\ converted always_processing (request_for a_cat)
       "Timeout waiting for image generation"
  /\ invoke always_processing {| name := "other_tool"; arguments := a_cat |}
     = (text_result "Unknown tool: other_tool" true, []).
Proof.
  split; [|split; [|split; [|split; [|split; [|split; [|split]]]]]].
  - destruct (C7_tool_call_boundary always_processing
                (request_for JsUndefined))
      as (_ & _ & H & _).
    now apply H.
  - destruct (C7_tool_call_boundary always_processing
                {| name := "other_tool"; arguments := JsUndefined |})
      as (_ & _ & H & _).
    now apply H.
  - destruct (C7_tool_call_boundary always_processing
                (request_for (args_of [])))
      as (_ & _ & _ & H & _).
    now apply H.
  - destruct (C7_tool_call_boundary create_500 (request_for a_cat))
      as (_ & _ & _ & _ & H & _).
    now apply (H CreateCall).
  - destruct (C7_tool_call_boundary failed_with_error (request_for a_cat))
      as (_ & _ & _ & _ & _ & H & _).
    now apply (H 0 "boom").
  - destruct (C7_tool_call_boundary failed_after_one_wait
                (request_for a_cat))
      as (_ & _ & _ & _ & _ & _ & H & _).
    now apply (H 1).
  - destruct (C7_tool_call_boundary always_processing (request_for a_cat))
      as (_ & _ & _ & _ & _ & _ & _ & H & _).
    now apply H.
  - destruct (C7_tool_call_boundary always_processing
                {| name := "other_tool"; arguments := a_cat |})
      as (_ & _ & _ & _ & _ & _ & _ & _ & H & _).
    now apply H.
Defined.

(** ** Further properties of the handler and the job runner *)

(** *** What [isReplicateArgs] accepts *)

Lemma accepts_string_prompt (props : gmap string JsValue) (s : string) :
  props !! "prompt" = Some (JsString s) ->
  isReplicateArgs (JsObject props) = true.
Proof.
  intros Hp. unfold isReplicateArgs.
  cbn [typeof has_property get]. rewrite Hp. cbn [default typeof].
  rewrite bool_decide_eq_true_2 by eauto. reflexivity.
Qed.

(** X1: [isReplicateArgs] accepts exactly the plain objects that have a
    [prompt] property holding a string; [undefined], [null], primitives,
    arrays, and objects whose prompt is missing or of another type are all
    rejected. *)
Theorem isReplicateArgs_accepts (args : JsValue) :
  isReplicateArgs args = true <->
  exists (props : gmap string JsValue) (s : string),
    args = JsObject props /\ props !! "prompt" = Some (JsString s).
Proof.
  split.
  - unfold isReplicateArgs.
    destruct args as [| | b | x | s | xs | props]; cbn; try discriminate.
    destruct (props !! "prompt") as [v|] eqn:E; cbn.
    + destruct v as [| | b | x | s | xs | inner]; cbn;
        try (intros H; rewrite ?andb_false_r in H; discriminate).
      intros _. now exists props, s.
    + discriminate.
  - intros (props & s & -> & Hp). now apply (accepts_string_prompt props s).
Qed.

(** *** Which remote calls an invocation makes *)

Lemma in_waits pid k e :
  In e (waits pid k) -> e = EvRead pid \/ e = EvSleep POLL_INTERVAL.
Proof.
  induction k as [|k IH]; cbn [waits In]; [contradiction|].
  intros [<-|[<-|H]]; auto.
Qed.

(** Every event of a trace belongs to this invocation's job: the creation
    carries the body built from the arguments, every status read addresses
    the identifier the creation returned, and every suspension lasts 2000
    milliseconds. *)
Definition own_event (net : Remote) (args : JsValue) (e : Event) : Prop :=
  match e with
  | EvCreate b => b = requestBody args
  | EvRead i => i = job_id net args
  | EvSleep ms => ms = 2000
  end.

(** X2: an invocation touches the remote service exactly when the request
    names the tool and its arguments pass [isReplicateArgs]; it then makes
    one job-creation call, first, and every later status read addresses the
    identifier that call returned. *)
Theorem remote_calls_gated (net : Remote) (request : CallToolRequest) :
  (snd (invoke net request) = [] <-> valid_request request = false)
  /\ (snd (invoke net request) = []
      \/ exists rest,
           snd (invoke net request)
           = EvCreate (requestBody (arguments request)) :: rest
           /\ no_create rest = true)
  /\ (forall e, In e (snd (invoke net request)) ->
        own_event net (arguments request) e).
Proof.
  destruct (invoke_run net request)
    as [Ht|Ht Hn|Ht Hn Ha|Hv Hok|k Hv Hok Hk Hp Hs|Hv Hok Hp]; cbn [snd].
  - repeat split; auto; try contradiction.
    intros _. destruct (valid_request request) eqn:Hv; [|reflexivity].
    apply valid_request_spec in Hv. destruct Hv as [_ Ha].
    apply isReplicateArgs_truthy in Ha. congruence.
  - repeat split; auto; try contradiction.
    intros _. unfold valid_request. now rewrite Hn.
  - repeat split; auto; try contradiction.
    intros _. unfold valid_request. now rewrite Ha, andb_false_r.
  - split; [split; [discriminate|congruence]|]. split.
    + right. now eexists.
    + intros e [<-|[]]. reflexivity.
  - split; [split; [discriminate|congruence]|]. split.
    + right. eexists. split; [reflexivity|]. now rewrite no_create_waits.
    + intros e [<-|H]; [reflexivity|].
      apply in_app_or in H. destruct H as [H|[<-|[]]]; [|reflexivity].
      apply in_waits in H. destruct H as [-> | ->]; reflexivity.
  - split; [split; [discriminate|congruence]|]. split.
    + right. eexists. split; [reflexivity|].
      rewrite <- (app_nil_r (waits _ _)). now rewrite no_create_waits.
    + intros e [<-|H]; [reflexivity|].
      apply in_waits in H. destruct H as [-> | ->]; reflexivity.
Qed.

(** *** How long an invocation can suspend *)

(** The total time, in milliseconds, a trace spends suspended. *)
Fixpoint total_sleep (t : list Event) : nat :=
  match t with
  | [] => 0
  | EvSleep ms :: rest => ms + total_sleep rest
  | _ :: rest => total_sleep rest
  end.

Lemma total_sleep_app t1 t2 :
  total_sleep (t1 ++ t2) = total_sleep t1 + total_sleep t2.
Proof.
  induction t1 as [|e t1 IH]; [reflexivity|].
  cbn [app total_sleep]. destruct e; lia.
Qed.

Lemma total_sleep_waits pid k : total_sleep (waits pid k) = 2000 * k.
Proof.
  induction k as [|k IH]; [reflexivity|].
  cbn [waits total_sleep]. unfold POLL_INTERVAL. lia.
Qed.

(** X3: an invocation never suspends more often than it reads, so at most 60
    times and for at most 60 * 2000 = 120000 milliseconds in all; a result other than the
    timeout is returned right after a status read, with no suspension
    between that read and the return. *)
Theorem suspension_bound (net : Remote) (request : CallToolRequest) :
  count_sleeps (snd (invoke net request))
    <= count_reads (snd (invoke net request))
  /\ count_reads (snd (invoke net request)) <= 60
  /\ total_sleep (snd (invoke net request))
     = 2000 * count_sleeps (snd (invoke net request))
  /\ total_sleep (snd (invoke net request)) <= 60 * 2000
  /\ (result_text (fst (invoke net request))
        <> "Error: Timeout waiting for image generation" ->
      snd (invoke net request) = []
      \/ (exists b, List.last (snd (invoke net request)) (EvSleep 0) = EvCreate b)
      \/ (exists i, List.last (snd (invoke net request)) (EvSleep 0) = EvRead i)).
Proof.
  destruct (invoke_run net request)
    as [Ht|Ht Hn|Ht Hn Ha|Hv Hok|k Hv Hok Hk Hp Hs|Hv Hok Hp];
    cbn [snd fst];
    try (change (EvCreate ?b :: ?t) with ([EvCreate b] ++ t));
    rewrite ?count_reads_app, ?count_sleeps_app, ?total_sleep_app,
      ?count_reads_waits, ?count_sleeps_waits, ?total_sleep_waits.
  all: unfold count_reads, count_sleeps;
    cbn [total_sleep List.filter is_read is_sleep length].
  1-3: repeat split; auto; lia.
  - repeat split; try lia. intros _. right. left. now eexists.
  - unfold MAX_ATTEMPTS in Hk. repeat split; try lia.
    intros _. right. right. eexists.
    rewrite app_assoc. apply last_last.
  - unfold MAX_ATTEMPTS. repeat split; try lia.
    intros H. now contradiction H.
Qed.

(** *** Exactly when an invocation succeeds, and when it times out *)

(** A reply that settles the job as a success: the read was [ok], no error
    is set, the status is ["succeeded"] and there is at least one output. *)
Definition success_reply (r : Response) : bool :=
  ok r
  && negb (error_set (json r))
  && String.eqb (status (json r)) "succeeded"
  && has_output (json r).

Lemma success_reply_verdict r :
  success_reply r = true ->
  in_progress r = false
  /\ verdict r = Returned (hd "" (default [] (output (json r)))).
Proof.
  unfold success_reply, in_progress, verdict. intros H.
  repeat (apply andb_prop in H; destruct H as [H ?]).
  apply negb_true_iff in H2. rewrite H, H2, H1, H0. now split.
Qed.

Lemma verdict_returned r uri :
  verdict r = Returned uri ->
  success_reply r = true /\ uri = hd "" (default [] (output (json r))).
Proof.
  unfold verdict, success_reply.
  destruct (ok r); cbn [negb andb]; [|discriminate].
  destruct (error_set (json r)); cbn [negb andb]; [discriminate|].
  destruct (String.eqb (status (json r)) "succeeded" && has_output (json r));
    [|discriminate].
  intros H. injection H as <-. now split.
Qed.

(** X4: an invocation returns [isError: false] exactly when the request is
    valid, the job creation is [ok], and some status read within the budget,
    reached through in-progress replies only, is [ok] with no error set,
    status ["succeeded"] and a non-empty output. *)
Theorem success_exactly_when (net : Remote) (request : CallToolRequest) :
  isError (fst (invoke net request)) = false <->
  valid_request request = true
  /\ ok (created net (arguments request)) = true
  /\ exists k,
       k < 60
       /\ pending net (arguments request) k = true
       /\ success_reply (reply net (arguments request) k) = true.
Proof.
  split.
  - destruct (invoke_run net request)
      as [Ht|Ht Hn|Ht Hn Ha|Hv Hok|k Hv Hok Hk Hp Hs|Hv Hok Hp];
      cbn [fst envelope text_result isError]; try discriminate.
    destruct (verdict (reply net (arguments request) k)) as [uri|d] eqn:Hver;
      cbn [envelope text_result isError]; [|discriminate].
    intros _. apply verdict_returned in Hver. destruct Hver as [Hsucc _].
    split; [assumption|]. split; [assumption|]. now exists k.
  - intros (Hv & Hok & k & Hk & Hp & Hsucc).
    apply success_reply_verdict in Hsucc. destruct Hsucc as [Hs Hver].
    rewrite (invoke_settled net request k) by assumption.
    now rewrite Hver.
Qed.

Lemma api_error_not_timeout r :
  "Error: " +:+ api_error r <> "Error: Timeout waiting for image generation".
Proof. unfold api_error. cbv [String.append]. intros H. inversion H. Qed.

(** X5: the envelope carries the timeout message exactly when the request is
    valid, the job creation is [ok] and all 60 status reads find the job in
    progress; no other failure is reported with that text. *)
Theorem timeout_exactly_when (net : Remote) (request : CallToolRequest) :
  result_text (fst (invoke net request))
    = "Error: Timeout waiting for image generation" <->
  valid_request request = true
  /\ ok (created net (arguments request)) = true
  /\ pending net (arguments request) 60 = true.
Proof.
  split.
  - destruct (invoke_run net request)
      as [Ht|Ht Hn|Ht Hn Ha|Hv Hok|k Hv Hok Hk Hp Hs|Hv Hok Hp];
      cbn [fst envelope text_result result_text content content_text].
    + cbv [String.append]. discriminate.
    + cbv [String.append]. discriminate.
    + cbv [String.append]. discriminate.
    + intros H. now apply api_error_not_timeout in H.
    + unfold verdict.
      destruct (ok (reply net (arguments request) k)); cbn [negb].
      2: { cbn [envelope text_result result_text content content_text].
           intros H. now apply api_error_not_timeout in H. }
      destruct (error_set _);
        [cbn [envelope text_result result_text content content_text];
         cbv [String.append]; discriminate|].
      destruct (_ && _);
        cbn [envelope text_result result_text content content_text];
        cbv [String.append]; discriminate.
    + intros _. now repeat split.
  - intros (Hv & Hok & Hp). now rewrite invoke_timeout.
Qed.

(** *** What an invocation depends on *)

(** X6: an invocation consults the remote service no further than it has to:
    two services that give the same reply to the job creation and to the
    first [n] status reads lead to the same envelope and the same trace,
    provided [n] is the whole budget of 60 or the job is already settled
    within the first [n] reads.  Replies after the settling one, and all
    replies past the 60th, are never looked at. *)
Theorem replies_consulted (net1 net2 : Remote) (request : CallToolRequest)
    (n : nat) :
  n = 60 \/ pending net1 (arguments request) n = false ->
  created net1 (arguments request) = created net2 (arguments request) ->
  (forall i, i < n ->
     reply net1 (arguments request) i = reply net2 (arguments request) i) ->
  invoke net1 request = invoke net2 request.
Proof.
  intros Hn Hc Hr.
  assert (Hid : job_id net1 (arguments request)
                = job_id net2 (arguments request))
    by (unfold job_id; now rewrite Hc).
  destruct (invoke_run net1 request)
    as [Ht|Ht Hnm|Ht Hnm Ha|Hv Hok|k Hv Hok Hk Hp Hs|Hv Hok Hp].
  - now rewrite invoke_no_arguments.
  - now rewrite invoke_unknown_tool.
  - now rewrite invoke_invalid_arguments.
  - rewrite invoke_rejected by (assumption || now rewrite <- Hc).
    now rewrite Hc.
  - assert (Hkn : k < n).
    { destruct Hn as [->|Hn]; [exact Hk|].
      destruct (le_lt_dec n k) as [Hle|]; [|assumption].
      rewrite (pending_le _ _ _ _ Hle Hp) in Hn. discriminate. }
    rewrite (invoke_settled net2 request k); try assumption.
    + rewrite <- Hr by assumption. now rewrite Hid.
    + now rewrite <- Hc.
    + apply pending_spec. intros i Hi. rewrite <- Hr by lia.
      rewrite pending_spec in Hp. now apply Hp.
    + now rewrite <- Hr.
  - assert (Hle : 60 <= n).
    { destruct Hn as [->|Hn]; [lia|].
      destruct (le_lt_dec 60 n) as [|Hlt]; [assumption|].
      assert (Hle : n <= MAX_ATTEMPTS) by (unfold MAX_ATTEMPTS; lia).
      rewrite (pending_le _ _ _ _ Hle Hp) in Hn. discriminate. }
    rewrite (invoke_timeout net2 request); try assumption.
    + now rewrite Hid.
    + now rewrite <- Hc.
    + apply pending_spec. intros i Hi.
      rewrite <- Hr by (unfold MAX_ATTEMPTS in Hi; lia).
      rewrite pending_spec in Hp. now apply Hp.
Qed.

Definition success_then_processing : Remote :=
  scripted starting
    [reply_ok (prediction "succeeded" (Some ["https://x/img.jpg"]) None)]
    processing.

Definition success_then_outage : Remote :=
  scripted starting
    [reply_ok (prediction "succeeded" (Some ["https://x/img.jpg"]) None)]
    (reply_error 503 "Service Unavailable" "down").

Lemma replies_consulted_witness :
  invoke success_then_processing (request_for a_cat)
  = invoke success_then_outage (request_for a_cat).
Proof.
  apply (replies_consulted success_then_processing success_then_outage
           (request_for a_cat) 1).
  - right. reflexivity.
  - reflexivity.
  - intros i Hi. destruct i as [|i]; [reflexivity|lia].
Defined.

(** The property names [generateImage] reads from its parameter. *)
Definition input_fields : list string :=
  ["prompt"; "raw"; "seed"; "aspect_ratio"; "image_prompt"; "output_format";
   "safety_tolerance"; "image_prompt_strength"].

(** X7: only these eight properties of the arguments matter: two argument
    objects that agree on them lead, for any tool name, to the same envelope
    and the same remote calls.  Any other property a caller adds is neither
    checked nor forwarded. *)
Theorem other_properties_ignored (net : Remote) (tool : string)
    (props1 props2 : gmap string JsValue) :
  (forall k, In k input_fields -> props1 !! k = props2 !! k) ->
  invoke net {| name := tool; arguments := JsObject props1 |}
  = invoke net {| name := tool; arguments := JsObject props2 |}.
Proof.
  intros H.
  assert (Hget : forall k, In k input_fields ->
            get k (JsObject props1) = get k (JsObject props2)).
  { intros k Hk. cbn [get]. now rewrite (H k Hk). }
  assert (Hbody : requestBody (JsObject props1) = requestBody (JsObject props2)).
  { unfold requestBody.
    rewrite !Hget by (cbn; tauto). reflexivity. }
  assert (Hargs : isReplicateArgs (JsObject props1)
                  = isReplicateArgs (JsObject props2)).
  { unfold isReplicateArgs. cbn [typeof has_property get].
    rewrite (H "prompt") by (cbn; tauto). reflexivity. }
  unfold invoke, call_tool, call_tool_body, generateImage.
  cbn [arguments name truthy negb]. now rewrite Hargs, Hbody.
Qed.

Lemma other_properties_ignored_witness :
  invoke always_processing
    {| name := TOOL_NAME;
       arguments := JsObject (<["model" := JsString "other"]>
                                {[ "prompt" := JsString "a cat" ]}) |}
  = invoke always_processing
      {| name := TOOL_NAME;
         arguments := JsObject {[ "prompt" := JsString "a cat" ]} |}.
Proof.
  apply (other_properties_ignored always_processing TOOL_NAME).
  intros k Hk. cbn [In input_fields] in Hk.
  repeat (destruct Hk as [<-|Hk]; [reflexivity|]). contradiction.
Defined.

(** *** The envelope *)

Lemma prefix_append s t : String.prefix s (s +:+ t) = true.
Proof.
  induction s as [|c s IH]; [now destruct t|].
  change (String.prefix (String c s) (String c (s +:+ t)) = true).
  cbn [String.prefix].
  destruct (Ascii.ascii_dec c c); [exact IH|contradiction].
Qed.

(** X8: every envelope carries exactly one content item, of type ["text"],
    and its [isError] flag is [false] exactly when that text begins with
    ["Generated image URL: "]. *)
Theorem envelope_shape (net : Remote) (request : CallToolRequest) :
  exists message,
    fst (invoke net request)
    = {| content := [ {| type := "text"; content_text := message |} ];
         isError := negb (String.prefix "Generated image URL: " message) |}.
Proof.
  destruct (invoke_run net request)
    as [Ht|Ht Hn|Ht Hn Ha|Hv Hok|k Hv Hok Hk Hp Hs|Hv Hok Hp];
    cbn [fst];
    try destruct (verdict (reply net (arguments request) k)) as [uri|d];
    unfold envelope, text_result; eexists; f_equal;
    try (symmetry; apply negb_false_iff, prefix_append);
    reflexivity.
Qed.

(** ** The tool descriptor and the list-tools handler *)

(** [Tool], with its [name] field as [tool_name]; the input schema is the
    JSON-Schema object literal. *)
Record Tool : Type := {
  tool_name : string;
  description : string;
  inputSchema : JsValue;
}.

Definition schema_entry (fields : list (string * JsValue)) : JsValue :=
  JsObject (list_to_map fields).

Definition REPLICATE_TOOL : Tool := {|
  tool_name := "replicate_image_generate";
  description := "Generates images using Replicate's Flux 1.1 Pro Ultra model";
  inputSchema := schema_entry [
    ("type", JsString "object");
    ("properties", schema_entry [
      ("prompt", schema_entry [
        ("type", JsString "string");
        ("title", JsString "Prompt");
        ("description", JsString "Text prompt for image generation")]);
      ("raw", schema_entry [
        ("type", JsString "boolean");
        ("title", JsString "Raw");
        ("description",
         JsString "Generate less processed, more natural-looking images");
        ("default", JsBool false)]);
      ("seed", schema_entry [
        ("type", JsString "integer");
        ("title", JsString "Seed");
        ("description",
         JsString "Random seed. Set for reproducible generation")]);
      ("aspect_ratio", schema_entry [
        ("type", JsString "string");
        ("title", JsString "aspect_ratio");
        ("description", JsString "Aspect ratio for the generated image");
        ("default", JsString "1:1");
        ("enum", JsArray (map JsString
           ["21:9"; "16:9"; "3:2"; "4:3"; "5:4"; "1:1"; "4:5"; "3:4"; "2:3";
            "9:16"; "9:21"]))]);
      ("image_prompt", schema_entry [
        ("type", JsString "string");
        ("title", JsString "Image Prompt");
        ("description",
         JsString "Image to use with Flux Redux. Used together with text prompt to guide generation");
        ("format", JsString "uri")]);
      ("output_format", schema_entry [
        ("type", JsString "string");
        ("title", JsString "output_format");
        ("description", JsString "Format of the output images");
        ("default", JsString "jpg");
        ("enum", JsArray [JsString "jpg"; JsString "png"])]);
      ("safety_tolerance", schema_entry [
        ("type", JsString "integer");
        ("title", JsString "Safety Tolerance");
        ("description",
         JsString "Safety tolerance, 1 is most strict and 6 is most permissive");
        ("default", JsNumber 2);
        ("minimum", JsNumber 1);
        ("maximum", JsNumber 6)]);
      ("image_prompt_strength", schema_entry [
        ("type", JsString "number");
        ("title", JsString "Image Prompt Strength");
        ("description",
         JsString "Blend between the prompt and the image prompt");
        ("default", JsNumber 0.1);
        ("minimum", JsNumber 0);
        ("maximum", JsNumber 1)])]);
    ("required", JsArray [JsString "prompt"])]
|}.

(** The [ListToolsRequestSchema] handler. *)
Definition list_tools : list Tool := [REPLICATE_TOOL].

(** The schema of one property, its declared default ([undefined] when it
    declares none), and the property names the schema requires. *)
Definition property_schema (t : Tool) (k : string) : JsValue :=
  get k (get "properties" (inputSchema t)).

Definition declared_default (t : Tool) (k : string) : JsValue :=
  get "default" (property_schema t k).

Definition required (t : Tool) : list JsValue :=
  match get "required" (inputSchema t) with
  | JsArray names => names
  | _ => []
  end.

(** The field of the request body sent under a property name. *)
Definition body_field (k : string) (b : ReplicateInput) : JsValue :=
  if String.eqb k "prompt" then prompt b
  else if String.eqb k "raw" then raw b
  else if String.eqb k "seed" then seed b
  else if String.eqb k "aspect_ratio" then aspect_ratio b
  else if String.eqb k "image_prompt" then image_prompt b
  else if String.eqb k "output_format" then output_format b
  else if String.eqb k "safety_tolerance" then safety_tolerance b
  else if String.eqb k "image_prompt_strength" then image_prompt_strength b
  else JsUndefined.

(** X9: the defaults [generateImage] applies are the ones the descriptor
    advertises: for each of the eight properties, when the arguments omit it,
    the body carries the [default] its schema declares, and nothing
    ([undefined]) when its schema declares none. *)
Theorem defaults_as_advertised (args : JsValue) (k : string) :
  In k input_fields ->
  has_property k args = false ->
  body_field k (input (requestBody args)) = declared_default REPLICATE_TOOL k.
Proof.
  intros Hk Ho. cbn [In input_fields] in Hk.
  repeat (destruct Hk as [<-|Hk];
          [cbn [body_field String.eqb Ascii.eqb Bool.eqb requestBody input
                prompt raw seed aspect_ratio image_prompt output_format
                safety_tolerance image_prompt_strength];
           rewrite (get_omitted _ _ Ho); vm_compute; reflexivity|]).
  contradiction.
Qed.

Lemma defaults_as_advertised_witness :
  body_field "safety_tolerance" (input (requestBody a_cat))
  = declared_default REPLICATE_TOOL "safety_tolerance".
Proof.
  apply (defaults_as_advertised a_cat "safety_tolerance").
  - cbn [In input_fields]. tauto.
  - reflexivity.
Defined.

(** X10: the tool the list-tools handler advertises is the one the call
    handler serves: the list holds one descriptor, and a call under its name
    whose arguments give every required property as a string is passed on to
    the remote service, never answered with ["Unknown tool"] or
    ["Invalid arguments"]. *)
Theorem advertised_tool_is_served (net : Remote) (t : Tool)
    (props : gmap string JsValue) :
  In t list_tools ->
  (forall k, In (JsString k) (required t) ->
     exists s, props !! k = Some (JsString s)) ->
  length list_tools = 1
  /\ valid_request {| name := tool_name t; arguments := JsObject props |}
     = true
  /\ exists rest,
       snd (invoke net {| name := tool_name t; arguments := JsObject props |})
       = EvCreate (requestBody (JsObject props)) :: rest.
Proof.
  intros [<-|[]] Hreq.
  assert (Hv : valid_request
                 {| name := tool_name REPLICATE_TOOL;
                    arguments := JsObject props |} = true).
  { apply valid_request_spec. split; [reflexivity|].
    destruct (Hreq "prompt") as [s Hs].
    - vm_compute. now left.
    - now apply (accepts_string_prompt props s). }
  split; [reflexivity|]. split; [exact Hv|].
  destruct (invoke_creates net _ Hv) as (rest & Ht & _).
  now exists rest.
Qed.

Lemma advertised_tool_is_served_witness :
  length list_tools = 1
  /\ valid_request
       {| name := tool_name REPLICATE_TOOL;
          arguments := JsObject {[ "prompt" := JsString "a cat" ]} |}
     = true
  /\ exists rest,
       snd (invoke always_processing
              {| name := tool_name REPLICATE_TOOL;
                 arguments := JsObject {[ "prompt" := JsString "a cat" ]} |})
       = EvCreate (requestBody (JsObject {[ "prompt" := JsString "a cat" ]}))
           :: rest.
Proof.
  apply (advertised_tool_is_served always_processing REPLICATE_TOOL
           {[ "prompt" := JsString "a cat" ]}).
  - left. reflexivity.
  - intros k Hk. vm_compute in Hk. destruct Hk as [Hk|[]].
    injection Hk as <-. exists "a cat". reflexivity.
Defined.

(** *** The URI [generateImage] returns *)

(** X11: [generateImage] only ever returns a URI the service reported: when
    it returns [uri], the job creation was [ok] and [uri] is the first output
    of the first status read, within the budget, whose reply is not in
    progress, that reply being a success. *)
Theorem returned_uri_origin (net : Remote) (args : JsValue) (uri : string) :
  fst (generateImage net args initial_world) = Returned uri ->
  ok (created net args) = true
  /\ exists k more,
       k < 60
       /\ pending net args k = true
       /\ success_reply (reply net args k) = true
       /\ output (json (reply net args k)) = Some (uri :: more).
Proof.
  set (request := {| name := TOOL_NAME; arguments := args |}).
  change args with (arguments request).
  intros H.
  destruct (ok (created net (arguments request))) eqn:Hok.
  2: { rewrite (generate_rejected net request Hok) in H. discriminate. }
  split; [reflexivity|].
  destruct (settles_or_times_out net (arguments request))
    as [(k & Hk & Hp & Hs)|Hp].
  - rewrite (generate_settled net request k Hok Hk Hp Hs) in H.
    cbn [fst] in H. apply verdict_returned in H. destruct H as [Hsucc ->].
    pose proof Hsucc as Hout. unfold success_reply, has_output in Hout.
    apply andb_prop in Hout. destruct Hout as [_ Hout].
    destruct (output (json (reply net (arguments request) k)))
      as [[|u more]|] eqn:E; try discriminate.
    exists k, more. repeat split; assumption.
  - rewrite (generate_reaches net request MAX_ATTEMPTS Hok) in H
      by (assumption || lia).
    rewrite poll_loop_exhausted in H by lia. discriminate.
Qed.

Lemma returned_uri_origin_witness :
  ok (created two_outputs_after_one_wait a_cat) = true
  /\ exists k more,
       k < 60
       /\ pending two_outputs_after_one_wait a_cat k = true
       /\ success_reply (reply two_outputs_after_one_wait a_cat k) = true
       /\ output (json (reply two_outputs_after_one_wait a_cat k))
          = Some ("https://x/a.jpg" :: more).
Proof.
  apply (returned_uri_origin two_outputs_after_one_wait a_cat
           "https://x/a.jpg").
  reflexivity.
Defined.
